(** * A URL shortener: Store, look-aside Cache, Shortener and Resolver

    Shallow embedding of [app/main.py]: the SQL table [url] behind the
    SQLModel session, the asyncio Redis client used as a look-aside cache,
    the random code generator, and the three request handlers
    [create_short_url], [get_url_stats] and [redirect_to_target_url]. *)

From Stdlib Require Import ZArith List String Ascii Bool Lia.
From stdpp Require Import gmap strings list fin_maps.
Import ListNotations.

Local Open Scope Z_scope.
Local Open Scope string_scope.

(** ** Python values *)

(** Truth value of an [Optional[str]]: [None] and the empty string are
    falsy, every other string is truthy. *)
Definition truthy (s : option string) : bool :=
  match s with
  | Some v => negb (String.eqb v "")
  | None => false
  end.

(** ** Data models (SQLModel classes) *)

Module URLCreate.
(** [class URLCreate(URLBase)]: the body of POST /shorten. *)
Record t := mk {
  target_url : string;
  short_code : option string
}.
End URLCreate.

Module URL.
(** [class URL(URLBase, table=True)]: one row of the table. *)
Record t := mk {
  id : option Z;
  target_url : string;
  short_code : string;
  is_active : bool;
  clicks : Z
}.

(** [URL(target_url=..., short_code=...)]: the other fields take their
    declared defaults. *)
Definition new (target_url short_code : string) : t :=
  {| id := None; target_url := target_url; short_code := short_code;
     is_active := true; clicks := 0 |}.

Definition with_id (i : Z) (r : t) : t :=
  {| id := Some i; target_url := target_url r; short_code := short_code r;
     is_active := is_active r; clicks := clicks r |}.

Definition with_clicks (n : Z) (r : t) : t :=
  {| id := id r; target_url := target_url r; short_code := short_code r;
     is_active := is_active r; clicks := n |}.
End URL.

(** ** The Store: table [url] seen through a [Session] *)

Record Database := mkDatabase {
  rows : list URL.t;      (* in insertion order *)
  next_id : Z             (* the primary-key sequence *)
}.

Definition has_code (code : string) (r : URL.t) : bool :=
  String.eqb (URL.short_code r) code.

(** [select(URL).where(URL.short_code == code)] then [.first()]. *)
Definition get_db_url_by_code (code : string) (db : Database) : option URL.t :=
  List.find (has_code code) (rows db).

(** The columns [id] and [clicks] are PostgreSQL INTEGERs: 32 bits, signed. *)
Definition INTEGER_MAX : Z := 2147483647.
Definition INTEGER_MIN : Z := -2147483648.

Definition fits_integer (n : Z) : bool :=
  Z.leb INTEGER_MIN n && Z.leb n INTEGER_MAX.

(** [session.add(db_url); session.commit(); session.refresh(db_url)] for a
    new object.  The INSERT draws the next primary key from the sequence;
    the unique index on [short_code] rejects a duplicate ([IntegrityError],
    here no row) and the transaction leaves the rows as they were, but the
    key that was drawn is not given back. *)
Definition session_insert (obj : URL.t) (db : Database)
  : option URL.t * Database :=
  if existsb (has_code (URL.short_code obj)) (rows db) then
    (None, {| rows := rows db; next_id := next_id db + 1 |})
  else
    let row := URL.with_id (next_id db) obj in
    (Some row, {| rows := rows db ++ [row]; next_id := next_id db + 1 |}).

(** UPDATE url SET clicks = <the value held by the object> WHERE id = <the
    object's id>. *)
Definition update_rows (obj : URL.t) (db : Database) : Database :=
  {| rows := List.map (fun r => if decide (URL.id r = URL.id obj)
                                then URL.with_clicks (URL.clicks obj) r
                                else r) (rows db);
     next_id := next_id db |}.

(** [session.add(db_url); session.commit()] for a loaded object whose
    [clicks] attribute was assigned.  A value that the INTEGER column cannot
    hold makes the commit raise ([DataError], here [None]); the transaction
    is rolled back and the table is as before. *)
Definition session_update_clicks (obj : URL.t) (db : Database)
  : option Database :=
  if fits_integer (URL.clicks obj) then Some (update_rows obj db) else None.

Arguments fits_integer : simpl never.
Arguments update_rows : simpl never.

(** ** The Cache: [redis.asyncio.Redis] *)

Module Redis.
(** The server behind the client: reachable with its key space, or not
    reachable (every command then raises [ConnectionError]). *)
Inductive Server :=
| Connected (kv : gmap string string)
| Unreachable.

(** Calling a command on the asyncio client only builds a coroutine;
    nothing is sent until it is awaited. *)
Inductive Coroutine : Type -> Type :=
| get (name : string) : Coroutine (option string)
| set (name value : string) : Coroutine unit.

(** [await c]: run the command against the server.  [None] is the raised
    connection error. *)
Definition await {A : Type} (c : Coroutine A) (srv : Server)
  : option (A * Server) :=
  match srv with
  | Unreachable => None
  | Connected kv =>
      match c in Coroutine T return option (T * Server) with
      | get name => Some (kv !! name, Connected kv)
      | set name value => Some (tt, Connected (<[name := value]> kv))
      end
  end.
End Redis.

(** ** The random source: [secrets] *)

Record Entropy := mkEntropy {
  urandom : nat -> nat;   (* the operating system's stream of random numbers *)
  cursor : nat            (* how many were consumed *)
}.

Definition randbelow (n : nat) (e : Entropy) : nat * Entropy :=
  (Nat.modulo (urandom e (cursor e)) n,
   {| urandom := urandom e; cursor := S (cursor e) |}).

(** [secrets.choice(seq)] is [seq[randbelow(len(seq))]]. *)
Definition secrets_choice (seq : string) (e : Entropy) : ascii * Entropy :=
  let '(i, e') := randbelow (String.length seq) e in
  (nth i (list_ascii_of_string seq) "000"%char, e').

Definition alphabet : string :=
  "abcdefghijklmnopqrstuvwxyzABCDEFGHIJKLMNOPQRSTUVWXYZ0123456789".

(** ["".join(secrets.choice(alphabet) for _ in range(length))] *)
Fixpoint generate_short_code (length : nat) (e : Entropy) : string * Entropy :=
  match length with
  | O => ("", e)
  | S n =>
      let '(c, e1) := secrets_choice alphabet e in
      let '(s, e2) := generate_short_code n e1 in
      (String c s, e2)
  end.

(** ** Process state and responses *)

Record World := mkWorld {
  redis_client : option Redis.Server;  (* the global; [None] before startup *)
  session : Database;
  secrets : Entropy
}.

Inductive Response :=
| Created (db_url : URL.t)                     (* 200, response_model=URL *)
| Stats (short_code target_url : string) (clicks : Z) (is_active : bool)
| RedirectResponse (url : string) (status_code : Z)
| HTTPException (status_code : Z)
| Unhandled.                                   (* an exception left the handler *)

(** ** Handlers *)

(** The [while True] loop of [create_short_url]; [fuel] bounds the number of
    draws, [None] means that many draws all collided. *)
Fixpoint draw_unused (fuel : nat) (e : Entropy) (db : Database)
  : option (string * Entropy) :=
  match fuel with
  | O => None
  | S fuel' =>
      let '(short_code, e') := generate_short_code 7 e in
      match get_db_url_by_code short_code db with
      | None => Some (short_code, e')
      | Some _ => draw_unused fuel' e' db
      end
  end.

(** POST /shorten.  The handler is a plain [def]: it calls
    [redis_client.set(...)] without awaiting, so the coroutine is built and
    dropped. *)
Definition create_short_url (fuel : nat) (url : URLCreate.t) (w : World)
  : option (Response * World) :=
  let chosen : option (Response + string * Entropy) :=
    if truthy (URLCreate.short_code url) then
      let code := default "" (URLCreate.short_code url) in
      match get_db_url_by_code code (session w) with
      | Some _ => Some (inl (HTTPException 409))
      | None => Some (inr (code, secrets w))
      end
    else
      match draw_unused fuel (secrets w) (session w) with
      | Some ce => Some (inr ce)
      | None => None
      end in
  match chosen with
  | None => None
  | Some (inl failure) => Some (failure, w)
  | Some (inr (short_code, e)) =>
      let obj := URL.new (URLCreate.target_url url) short_code in
      match session_insert obj (session w) with
      | (None, db') =>
          Some (Unhandled,
                {| redis_client := redis_client w; session := db';
                   secrets := e |})
      | (Some db_url, db') =>
          let never_awaited : option (Redis.Coroutine unit) :=
            match redis_client w with
            | Some _ => Some (Redis.set short_code (URL.target_url db_url))
            | None => None
            end in
          Some (Created db_url,
                {| redis_client := redis_client w; session := db';
                   secrets := e |})
      end
  end.

(** GET /stats/{short_code} *)
Definition get_url_stats (short_code : string) (w : World) : Response :=
  match get_db_url_by_code short_code (session w) with
  | None => HTTPException 404
  | Some db_url =>
      Stats (URL.short_code db_url) (URL.target_url db_url)
            (URL.clicks db_url) (URL.is_active db_url)
  end.

Definition with_redis (srv : option Redis.Server) (w : World) : World :=
  {| redis_client := srv; session := session w; secrets := secrets w |}.

Definition with_session (db : Database) (w : World) : World :=
  {| redis_client := redis_client w; session := db; secrets := secrets w |}.

(** GET /{short_code} *)
Definition redirect_to_target_url (short_code : string) (w : World)
  : Response * World :=
  let looked_up : option (option string) :=
    match redis_client w with
    | None => Some None
    | Some srv =>
        match Redis.await (Redis.get short_code) srv with
        | Some (v, _) => Some v
        | None => None
        end
    end in
  match looked_up with
  | None => (Unhandled, w)
  | Some target_url =>
      if truthy target_url then
        (RedirectResponse (default "" target_url) 307, w)
      else
        match get_db_url_by_code short_code (session w) with
        | None => (HTTPException 404, w)
        | Some db_url =>
            if negb (URL.is_active db_url) then (HTTPException 404, w)
            else
              let target_url := URL.target_url db_url in
              let primed : option (option Redis.Server) :=
                match redis_client w with
                | None => Some None
                | Some srv =>
                    match Redis.await (Redis.set short_code target_url) srv with
                    | Some (_, srv') => Some (Some srv')
                    | None => None
                    end
                end in
              match primed with
              | None => (Unhandled, w)
              | Some rc =>
                  let db_url' :=
                    URL.with_clicks (URL.clicks db_url + 1) db_url in
                  match session_update_clicks db_url' (session w) with
                  | Some db' =>
                      (RedirectResponse target_url 307,
                       {| redis_client := rc; session := db';
                          secrets := secrets w |})
                  | None =>
                      (Unhandled,
                       {| redis_client := rc; session := session w;
                          secrets := secrets w |})
                  end
              end
        end
  end.

(** ** The resolver as the event loop runs it

    [redirect_to_target_url] is a coroutine: it yields to the event loop at
    each [await], and other requests run in between.  A [Task] is the point
    where a request is suspended together with its local variables.  The
    awaits are there only when [redis_client] is set; without a client the
    resumptions below follow each other with nothing in between. *)

Inductive Task :=
| Start
| GotCache (target_url : option string)   (* resumed from [await get] *)
| Primed (db_url : URL.t)                 (* resumed from [await set] *)
| Done (r : Response).

Definition step (short_code : string) (t : Task) (w : World) : Task * World :=
  match t with
  | Start =>
      match redis_client w with
      | None => (GotCache None, w)
      | Some srv =>
          match Redis.await (Redis.get short_code) srv with
          | Some (v, _) => (GotCache v, w)
          | None => (Done Unhandled, w)
          end
      end
  | GotCache target_url =>
      if truthy target_url then
        (Done (RedirectResponse (default "" target_url) 307), w)
      else
        match get_db_url_by_code short_code (session w) with
        | None => (Done (HTTPException 404), w)
        | Some db_url =>
            if negb (URL.is_active db_url) then (Done (HTTPException 404), w)
            else
              match redis_client w with
              | None => (Primed db_url, w)
              | Some srv =>
                  match Redis.await
                          (Redis.set short_code (URL.target_url db_url)) srv with
                  | Some (_, srv') => (Primed db_url, with_redis (Some srv') w)
                  | None => (Done Unhandled, w)
                  end
              end
        end
  | Primed db_url =>
      let db_url' := URL.with_clicks (URL.clicks db_url + 1) db_url in
      match session_update_clicks db_url' (session w) with
      | Some db' =>
          (Done (RedirectResponse (URL.target_url db_url) 307),
           with_session db' w)
      | None => (Done Unhandled, w)
      end
  | Done r => (Done r, w)
  end.

(** One request run alone: three resumptions reach [Done]. *)
Definition run_alone (short_code : string) (w : World) : Task * World :=
  let '(t1, w1) := step short_code Start w in
  let '(t2, w2) := step short_code t1 w1 in
  step short_code t2 w2.

(** Two requests for the same code under a schedule: [true] resumes the
    first, [false] the second. *)
Fixpoint interleave (sched : list bool) (short_code : string)
  (a b : Task) (w : World) : Task * Task * World :=
  match sched with
  | [] => (a, b, w)
  | true :: rest =>
      let '(a', w') := step short_code a w in
      interleave rest short_code a' b w'
  | false :: rest =>
      let '(b', w') := step short_code b w in
      interleave rest short_code a b' w'
  end.

(** What the client sees of POST /shorten, and what is persisted. *)
Definition visible (out : option (Response * World))
  : option (Response * Database) :=
  match out with
  | Some (r, w) => Some (r, session w)
  | None => None
  end.

(** ** Invariants *)

(** The table's constraints: primary keys are assigned, below the sequence
    and distinct; short codes are distinct. *)
Record db_wf (db : Database) : Prop := mk_db_wf {
  wf_ids : NoDup (List.map URL.id (rows db));
  wf_codes : NoDup (List.map URL.short_code (rows db));
  wf_keys : forall r, In r (rows db) ->
            exists i, URL.id r = Some i /\ i < next_id db
}.

(** Every pair held by the Cache is the projection of a row of the Store. *)
Definition coherent (w : World) : Prop :=
  forall kv code u,
    redis_client w = Some (Redis.Connected kv) ->
    kv !! code = Some u ->
    exists r, get_db_url_by_code code (session w) = Some r
              /\ URL.target_url r = u.

Definition cache_available (w : World) : Prop :=
  redis_client w <> Some Redis.Unreachable.

Definition skip (n : nat) (e : Entropy) : Entropy :=
  {| urandom := urandom e; cursor := n + cursor e |}.

(** The code produced by the [k]-th iteration of the allocation loop. *)
Definition candidate (k : nat) (e : Entropy) : string :=
  fst (generate_short_code 7 (skip (7 * k) e)).

Definition in_alphabet (c : ascii) : Prop :=
  In c (list_ascii_of_string alphabet).

(** ** Runs of the service *)

Inductive Request :=
| Shorten (fuel : nat) (url : URLCreate.t)
| GetStats (short_code : string)
| Resolve (short_code : string).

Definition serve (q : Request) (w : World) : option (Response * World) :=
  match q with
  | Shorten fuel url => create_short_url fuel url w
  | GetStats short_code => Some (get_url_stats short_code w, w)
  | Resolve short_code => Some (redirect_to_target_url short_code w)
  end.

Definition empty_db : Database := {| rows := []; next_id := 1 |}.

(** The Cache at startup: no client, a reachable empty server, or a server
    that cannot be reached. *)
Definition cold (rc : option Redis.Server) : Prop :=
  rc = None \/ rc = Some (Redis.Connected ∅) \/ rc = Some Redis.Unreachable.

(** The worlds that the handlers produce from an empty table and a cold
    Cache. *)
Inductive reachable : World -> Prop :=
| reachable_start rc e :
    cold rc ->
    reachable {| redis_client := rc; session := empty_db; secrets := e |}
| reachable_serve q w resp w' :
    reachable w -> serve q w = Some (resp, w') -> reachable w'.

(** ** Vocabulary of the statements *)

(** The row that POST /shorten stores for a target and an allocated code. *)
Definition stored_row (target code : string) (db : Database) : URL.t :=
  URL.with_id (next_id db) (URL.new target code).

Definition after_insert (row : URL.t) (e : Entropy) (w : World) : World :=
  {| redis_client := redis_client w;
     session := {| rows := rows (session w) ++ [row];
                   next_id := next_id (session w) + 1 |};
     secrets := e |}.

(** The Store path: taken when there is no client, or when the client's
    answer is falsy. *)
Definition cache_miss (code : string) (w : World) : Prop :=
  redis_client w = None
  \/ exists kv, redis_client w = Some (Redis.Connected kv)
                /\ truthy (kv !! code) = false.

Definition primed_cache (code target : string) (rc : option Redis.Server)
  : option Redis.Server :=
  match rc with
  | Some (Redis.Connected kv) => Some (Redis.Connected (<[code := target]> kv))
  | other => other
  end.

(** When creation can be shown to return a record: a supplied code that is
    unused, or an unused candidate within the fuel of the loop. *)
Definition allocatable (fuel : nat) (url : URLCreate.t) (w : World) : Prop :=
  (exists c, URLCreate.short_code url = Some c /\ c <> ""
             /\ get_db_url_by_code c (session w) = None)
  \/ (truthy (URLCreate.short_code url) = false
      /\ exists k, (k < fuel)%nat
           /\ get_db_url_by_code (candidate k (secrets w)) (session w) = None).

(** ** Concrete worlds used in the examples *)

Definition counting : Entropy := {| urandom := fun n => n; cursor := 0 |}.

Definition google : string := "https://www.google.com".

Definition row_of (code target : string) (active : bool) (n : Z) : URL.t :=
  {| URL.id := Some 1; URL.target_url := target; URL.short_code := code;
     URL.is_active := active; URL.clicks := n |}.

Definition one_row (code target : string) (active : bool) (n : Z) : Database :=
  {| rows := [row_of code target active n]; next_id := 2 |}.

Definition world (rc : option Redis.Server) (db : Database) : World :=
  {| redis_client := rc; session := db; secrets := counting |}.

(** ** Startup: [lifespan]

    What is outside the process when it starts: whether the [attempt]-th
    call of [create_db_and_tables] goes through or raises
    [OperationalError], the tables the database already holds (none on a
    first start), and the Redis server behind the client. *)

Inductive Printed :=
| WaitingForDb
| TablesReady
| DbNotReady (attempt max_attempts wait_seconds : nat)
| DbGaveUp (max_attempts : nat)
| RedisOk
| RedisError.

Record Boot := mkBoot {
  slept : nat;                 (* seconds spent in [time.sleep] *)
  printed : list Printed
}.

Definition say (line : Printed) (b : Boot) : Boot :=
  {| slept := slept b; printed := printed b ++ [line] |}.

(** [SQLModel.metadata.create_all(engine)]: creates the table when it is
    missing and leaves an existing one as it is. *)
Definition create_db_and_tables (pg : option Database) : Database :=
  match pg with
  | Some db => db
  | None => {| rows := []; next_id := 1 |}
  end.

(** The [for attempt in range(1, max_attempts + 1)] loop: [true] when it is
    left by [break] (or runs out), [false] when the last attempt re-raises. *)
Fixpoint wait_for_db (db_ok : nat -> bool) (max_attempts : nat)
  (attempts : list nat) (b : Boot) : bool * Boot :=
  match attempts with
  | [] => (true, b)
  | attempt :: rest =>
      if db_ok attempt then (true, say TablesReady b)
      else if Nat.eqb attempt max_attempts then
        (false, say (DbGaveUp max_attempts) b)
      else
        let wait_seconds := 2%nat in
        wait_for_db db_ok max_attempts rest
          {| slept := slept b + wait_seconds;
             printed := printed b
                        ++ [DbNotReady attempt max_attempts wait_seconds] |}
  end.

Inductive Startup :=
| Serving (w : World) (b : Boot)   (* reached [yield]: requests are served *)
| Crashed (b : Boot).              (* the [OperationalError] left [lifespan] *)

(** [lifespan], up to its [yield].  The client is assigned whatever the
    ping says: a failed ping is caught and printed. *)
Definition lifespan (db_ok : nat -> bool) (pg : option Database)
  (srv : Redis.Server) (e : Entropy) : Startup :=
  let max_attempts := 10%nat in
  match wait_for_db db_ok max_attempts (seq 1 max_attempts)
          {| slept := 0; printed := [WaitingForDb] |} with
  | (false, b) => Crashed b
  | (true, b) =>
      let pinged :=                 (* [await redis_client.ping()] *)
        match srv with
        | Redis.Connected _ => RedisOk
        | Redis.Unreachable => RedisError
        end in
      Serving {| redis_client := Some srv;
                 session := create_db_and_tables pg;
                 secrets := e |}
              (say pinged b)
  end.

(** ** POST /shorten as the thread pool runs it

    [create_short_url] is a plain [def], run in a worker thread: another
    request can run between its existence check and its INSERT. *)

Inductive ShortenTask :=
| Arrived
| Chosen (short_code : string)     (* the check passed, the INSERT is next *)
| Answered (r : Response).

Definition shorten_step (fuel : nat) (url : URLCreate.t) (t : ShortenTask)
  (w : World) : option (ShortenTask * World) :=
  match t with
  | Arrived =>
      if truthy (URLCreate.short_code url) then
        let code := default "" (URLCreate.short_code url) in
        match get_db_url_by_code code (session w) with
        | Some _ => Some (Answered (HTTPException 409), w)
        | None => Some (Chosen code, w)
        end
      else
        match draw_unused fuel (secrets w) (session w) with
        | Some (code, e) =>
            Some (Chosen code,
                  {| redis_client := redis_client w; session := session w;
                     secrets := e |})
        | None => None
        end
  | Chosen short_code =>
      let obj := URL.new (URLCreate.target_url url) short_code in
      match session_insert obj (session w) with
      | (None, db') => Some (Answered Unhandled, with_session db' w)
      | (Some db_url, db') =>
          Some (Answered (Created db_url), with_session db' w)
      end
  | Answered r => Some (Answered r, w)
  end.

(** The request run alone: both steps in a row. *)
Definition shorten_alone (fuel : nat) (url : URLCreate.t) (w : World)
  : option (ShortenTask * World) :=
  match shorten_step fuel url Arrived w with
  | Some (t, w1) => shorten_step fuel url t w1
  | None => None
  end.

(** ** Sequences of requests and the repository's test *)

(** [n] GET /{short_code} requests, one after the other. *)
Fixpoint resolve_times (n : nat) (short_code : string) (w : World) : World :=
  match n with
  | O => w
  | S k => resolve_times k short_code (snd (redirect_to_target_url short_code w))
  end.

Definition status_code (r : Response) : Z :=
  match r with
  | Created _ => 200
  | Stats _ _ _ _ => 200
  | RedirectResponse _ code => code
  | HTTPException code => code
  | Unhandled => 500
  end.


(** * Properties *)

(** ** Lookups in the table *)

Lemma has_code_true code r : has_code code r = true <-> URL.short_code r = code.
Proof. unfold has_code. apply String.eqb_eq. Qed.

Lemma lookup_code_sound code db r :
  get_db_url_by_code code db = Some r ->
  In r (rows db) /\ URL.short_code r = code.
Proof.
  unfold get_db_url_by_code. intros H.
  apply find_some in H as [Hin Hc]. split; [exact Hin | now apply has_code_true].
Qed.

Lemma existsb_find_none code l :
  existsb (has_code code) l = false <-> List.find (has_code code) l = None.
Proof.
  induction l as [|r l IH]; simpl; [tauto|].
  destruct (has_code code r); simpl; [split; discriminate | exact IH].
Qed.

Lemma find_app_miss code (l1 l2 : list URL.t) :
  List.find (has_code code) l1 = None ->
  List.find (has_code code) (l1 ++ l2) = List.find (has_code code) l2.
Proof.
  induction l1 as [|r l1 IH]; simpl; [reflexivity|].
  destruct (has_code code r); [discriminate | exact IH].
Qed.

Lemma find_app_hit code (l1 l2 : list URL.t) r :
  List.find (has_code code) l1 = Some r ->
  List.find (has_code code) (l1 ++ l2) = Some r.
Proof.
  induction l1 as [|x l1 IH]; simpl; [discriminate|].
  destruct (has_code code x); [trivial | exact IH].
Qed.

(** An insert succeeds exactly when the code is unused. *)
Lemma session_insert_unused obj db :
  get_db_url_by_code (URL.short_code obj) db = None ->
  session_insert obj db =
    (Some (URL.with_id (next_id db) obj),
     {| rows := rows db ++ [URL.with_id (next_id db) obj];
        next_id := next_id db + 1 |}).
Proof.
  unfold session_insert, get_db_url_by_code. intros H.
  apply existsb_find_none in H. now rewrite H.
Qed.


Lemma lookup_after_insert code row db :
  get_db_url_by_code code
    {| rows := rows db ++ [row]; next_id := next_id db + 1 |} =
  match get_db_url_by_code code db with
  | Some r => Some r
  | None => if has_code code row then Some row else None
  end.
Proof.
  unfold get_db_url_by_code; simpl.
  destruct (List.find (has_code code) (rows db)) as [r|] eqn:E.
  - now apply find_app_hit.
  - rewrite find_app_miss by exact E. reflexivity.
Qed.

(** The UPDATE keeps every row's code, so lookups find the same row, with
    the new counter if its key is the updated one. *)
Lemma lookup_after_update code obj db :
  get_db_url_by_code code (update_rows obj db) =
  match get_db_url_by_code code db with
  | Some r => Some (if decide (URL.id r = URL.id obj)
                    then URL.with_clicks (URL.clicks obj) r else r)
  | None => None
  end.
Proof.
  unfold get_db_url_by_code, update_rows; simpl.
  induction (rows db) as [|x l IH]; simpl; [reflexivity|].
  assert (Hc : forall y : URL.t,
    has_code code (if decide (URL.id y = URL.id obj)
                   then URL.with_clicks (URL.clicks obj) y else y)
    = has_code code y) by (intros y; now destruct (decide _)).
  rewrite Hc. destruct (has_code code x); [reflexivity | exact IH].
Qed.

Lemma in_map_fst_eq {A B : Type} (f : A -> B) (l : list A) x y :
  NoDup (List.map f l) -> In x l -> In y l -> f x = f y -> x = y.
Proof.
  induction l as [|a l IH]; simpl; [tauto|].
  intros Hnd Hx Hy Hf. apply NoDup_cons in Hnd as [Hna Hnd].
  destruct Hx as [->|Hx], Hy as [->|Hy]; trivial.
  - exfalso. apply Hna. rewrite Hf. apply list_elem_of_In, in_map, Hy.
  - exfalso. apply Hna. rewrite <- Hf. apply list_elem_of_In, in_map, Hx.
  - now apply IH.
Qed.

(** ** The code generator *)

Lemma skip_skip a b e : skip a (skip b e) = skip (a + b) e.
Proof. unfold skip; simpl. f_equal. lia. Qed.

Lemma skip_0 e : skip 0 e = e.
Proof. now destruct e. Qed.

Lemma generate_short_code_cursor n e :
  snd (generate_short_code n e) = skip n e.
Proof.
  revert e. induction n as [|n IH]; intros e; simpl.
  - symmetry. apply skip_0.
  - specialize (IH {| urandom := urandom e; cursor := S (cursor e) |}).
    destruct (generate_short_code n _) as [s e2]; simpl in *.
    rewrite IH. unfold skip; simpl. f_equal. lia.
Qed.

Lemma generate_short_code_length n e :
  String.length (fst (generate_short_code n e)) = n.
Proof.
  revert e. induction n as [|n IH]; intros e; simpl; [reflexivity|].
  specialize (IH {| urandom := urandom e; cursor := S (cursor e) |}).
  destruct (generate_short_code n _) as [s e2]; simpl in *. now rewrite IH.
Qed.

Lemma secrets_choice_alphabet e : in_alphabet (fst (secrets_choice alphabet e)).
Proof.
  unfold secrets_choice, randbelow, in_alphabet; cbn [fst].
  apply nth_In.
  change (List.length (list_ascii_of_string alphabet)) with 62%nat.
  change (String.length alphabet) with 62%nat.
  apply Nat.mod_upper_bound. discriminate.
Qed.

Lemma generate_short_code_alphabet n e :
  Forall in_alphabet (list_ascii_of_string (fst (generate_short_code n e))).
Proof.
  revert e. induction n as [|n IH]; intros e; [constructor|].
  cbn [generate_short_code].
  pose proof (secrets_choice_alphabet e) as Hc.
  destruct (secrets_choice alphabet e) as [c e1] eqn:E1.
  specialize (IH e1).
  assert (e1 = {| urandom := urandom e; cursor := S (cursor e) |}) as ->
    by (unfold secrets_choice, randbelow in E1; now inversion E1).
  destruct (generate_short_code n _) as [s e2]; simpl in *.
  constructor; assumption.
Qed.

Lemma candidate_S j e : candidate (S j) e = candidate j (skip 7 e).
Proof.
  unfold candidate. rewrite skip_skip. do 2 f_equal. f_equal. lia.
Qed.

Lemma candidate_0 e : candidate 0 e = fst (generate_short_code 7 e).
Proof. unfold candidate. now rewrite skip_0. Qed.

(** What the allocation loop returns: the first candidate that the Store
    does not hold; all earlier candidates collided. *)
Lemma draw_unused_sound fuel e db c e' :
  draw_unused fuel e db = Some (c, e') ->
  exists j, (j < fuel)%nat /\ c = candidate j e /\ e' = skip (7 * S j) e
    /\ get_db_url_by_code c db = None
    /\ forall i, (i < j)%nat -> get_db_url_by_code (candidate i e) db <> None.
Proof.
  revert e. induction fuel as [|fuel IH]; intros e; [discriminate|].
  cbn [draw_unused].
  pose proof (generate_short_code_cursor 7 e) as Hcur.
  pose proof (candidate_0 e) as Hc0.
  destruct (generate_short_code 7 e) as [s e1]; simpl in Hcur, Hc0. subst e1.
  destruct (get_db_url_by_code s db) as [r|] eqn:Hs.
  - intros H. apply IH in H as (j & Hj & -> & -> & Hnone & Hprev).
    exists (S j). repeat split.
    + lia.
    + symmetry. apply candidate_S.
    + rewrite skip_skip. f_equal. lia.
    + exact Hnone.
    + intros [|i] Hi; [rewrite Hc0, Hs; discriminate|].
      rewrite candidate_S. apply Hprev. lia.
  - intros [= <- <-]. exists 0%nat. repeat split; try lia; try assumption.
    now symmetry.
Qed.

(** The loop ends as soon as some candidate within the fuel is unused. *)
Lemma draw_unused_complete fuel e db k :
  (k < fuel)%nat ->
  get_db_url_by_code (candidate k e) db = None ->
  exists c e', draw_unused fuel e db = Some (c, e').
Proof.
  revert e k. induction fuel as [|fuel IH]; intros e k Hk Hfree; [lia|].
  cbn [draw_unused].
  pose proof (generate_short_code_cursor 7 e) as Hcur.
  pose proof (candidate_0 e) as Hc0.
  destruct (generate_short_code 7 e) as [s e1]; simpl in Hcur, Hc0. subst e1.
  destruct (get_db_url_by_code s db) as [r|] eqn:Hs; [|eauto].
  destruct k as [|k]; [rewrite Hc0 in Hfree; congruence|].
  rewrite candidate_S in Hfree. apply (IH _ k); [lia | exact Hfree].
Qed.

(** ** POST /shorten, case by case *)

Lemma truthy_Some c : c <> "" -> truthy (Some c) = true.
Proof.
  intros Hc. unfold truthy. destruct (String.eqb_spec c ""); [contradiction|reflexivity].
Qed.

Lemma truthy_true_inv o : truthy o = true -> exists c, o = Some c /\ c <> "".
Proof.
  destruct o as [c|]; [|discriminate]. unfold truthy.
  destruct (String.eqb_spec c ""); [discriminate|]. eauto.
Qed.

Lemma create_short_url_explicit fuel url w c :
  URLCreate.short_code url = Some c -> c <> "" ->
  create_short_url fuel url w =
  match get_db_url_by_code c (session w) with
  | Some _ => Some (HTTPException 409, w)
  | None =>
      let row := stored_row (URLCreate.target_url url) c (session w) in
      Some (Created row, after_insert row (secrets w) w)
  end.
Proof.
  intros Hc Hne. unfold create_short_url. rewrite Hc, (truthy_Some c Hne).
  cbn [from_option id]. destruct (get_db_url_by_code c (session w)) eqn:E; [reflexivity|].
  rewrite session_insert_unused by exact E. reflexivity.
Qed.

Lemma create_short_url_auto fuel url w :
  truthy (URLCreate.short_code url) = false ->
  create_short_url fuel url w =
  match draw_unused fuel (secrets w) (session w) with
  | Some (c, e) =>
      let row := stored_row (URLCreate.target_url url) c (session w) in
      Some (Created row, after_insert row e w)
  | None => None
  end.
Proof.
  intros Hf. unfold create_short_url. rewrite Hf.
  destruct (draw_unused fuel (secrets w) (session w)) as [[c e]|] eqn:E;
    [|reflexivity].
  apply draw_unused_sound in E as (j & _ & _ & _ & Hnone & _).
  rewrite session_insert_unused by exact Hnone. reflexivity.
Qed.

(** Whatever the request, a created record carries a code that the Store
    did not hold, the requested target, and the defaults. *)
Lemma create_short_url_created fuel url w r w' :
  create_short_url fuel url w = Some (Created r, w') ->
  exists e,
    get_db_url_by_code (URL.short_code r) (session w) = None
    /\ r = stored_row (URLCreate.target_url url) (URL.short_code r) (session w)
    /\ w' = after_insert r e w.
Proof.
  destruct (truthy (URLCreate.short_code url)) eqn:T.
  - apply truthy_true_inv in T as (c & Hc & Hne).
    rewrite (create_short_url_explicit fuel url w c Hc Hne).
    destruct (get_db_url_by_code c (session w)) eqn:E; [discriminate|].
    intros [= <- <-]. exists (secrets w). simpl. auto.
  - rewrite (create_short_url_auto fuel url w T).
    destruct (draw_unused fuel (secrets w) (session w)) as [[c e]|] eqn:E;
      [|discriminate].
    apply draw_unused_sound in E as (j & _ & _ & _ & Hnone & _).
    intros [= <- <-]. exists e. simpl. auto.
Qed.


(** C4: a caller-supplied code that the Store already holds is refused with
    409, and nothing changes: not the Store, not the Cache, not the random
    source. *)
Theorem taken_code_conflict fuel url w c r :
  URLCreate.short_code url = Some c -> c <> "" ->
  get_db_url_by_code c (session w) = Some r ->
  create_short_url fuel url w = Some (HTTPException 409, w).
Proof.
  intros Hc Hne Hr. rewrite (create_short_url_explicit fuel url w c Hc Hne).
  now rewrite Hr.
Qed.

(** ** GET /{short_code} and GET /stats/{short_code} *)

Lemma redirect_hit code w kv u :
  redis_client w = Some (Redis.Connected kv) ->
  kv !! code = Some u -> u <> "" ->
  redirect_to_target_url code w = (RedirectResponse u 307, w).
Proof.
  intros Hrc Hkv Hne. unfold redirect_to_target_url. rewrite Hrc. simpl.
  rewrite Hkv, (truthy_Some u Hne). reflexivity.
Qed.

Lemma redirect_miss code w :
  cache_miss code w ->
  redirect_to_target_url code w =
  match get_db_url_by_code code (session w) with
  | None => (HTTPException 404, w)
  | Some r =>
      if URL.is_active r then
        if fits_integer (URL.clicks r + 1) then
          (RedirectResponse (URL.target_url r) 307,
           {| redis_client :=
                primed_cache code (URL.target_url r) (redis_client w);
              session := update_rows
                           (URL.with_clicks (URL.clicks r + 1) r) (session w);
              secrets := secrets w |})
        else
          (Unhandled,
           {| redis_client :=
                primed_cache code (URL.target_url r) (redis_client w);
              session := session w;
              secrets := secrets w |})
      else (HTTPException 404, w)
  end.
Proof.
  intros [Hrc | (kv & Hrc & Hmiss)]; unfold redirect_to_target_url;
    rewrite Hrc; simpl; [|rewrite Hmiss];
    destruct (get_db_url_by_code code (session w)) as [r|]; trivial;
    destruct (URL.is_active r); trivial;
    unfold session_update_clicks; simpl;
    destruct (fits_integer (URL.clicks r + 1)); reflexivity.
Qed.

(** C3: on a cache hit the cached URL is returned and nothing is written:
    the Store, with every counter in it, is the one before the request. *)
Theorem cache_hit_no_click code w kv u :
  redis_client w = Some (Redis.Connected kv) ->
  kv !! code = Some u -> u <> "" ->
  fst (redirect_to_target_url code w) = RedirectResponse u 307
  /\ session (snd (redirect_to_target_url code w)) = session w
  /\ snd (redirect_to_target_url code w) = w.
Proof.
  intros Hrc Hkv Hne. rewrite (redirect_hit code w kv u Hrc Hkv Hne). auto.
Qed.

(** A cached empty string is falsy: the handler takes it for a miss. *)
Lemma cached_empty_string_is_a_miss code w kv :
  redis_client w = Some (Redis.Connected kv) ->
  kv !! code = Some "" -> cache_miss code w.
Proof. intros Hrc Hkv. right. exists kv. now rewrite Hkv. Qed.

(** C10: the stats endpoint never looks at [is_active]: any row the Store
    holds is reported with its four fields, also an inactive one for which
    the redirect endpoint, on its Store path, answers 404. *)
Theorem stats_ignore_is_active code w r :
  get_db_url_by_code code (session w) = Some r ->
  get_url_stats code w =
    Stats (URL.short_code r) (URL.target_url r) (URL.clicks r) (URL.is_active r)
  /\ URL.short_code r = code
  /\ (URL.is_active r = false -> cache_miss code w ->
      fst (redirect_to_target_url code w) = HTTPException 404).
Proof.
  intros Hr. unfold get_url_stats. rewrite Hr. split; [reflexivity|].
  split; [apply (lookup_code_sound _ _ _ Hr)|].
  intros Hoff Hmiss. rewrite (redirect_miss code w Hmiss), Hr, Hoff. reflexivity.
Qed.

(** ** The invariants hold at start and are kept by every handler *)

Lemma db_wf_empty : db_wf empty_db.
Proof. split; simpl; [constructor | constructor | tauto]. Qed.

Lemma lookup_none_not_in code db :
  get_db_url_by_code code db = None ->
  ~ In code (List.map URL.short_code (rows db)).
Proof.
  unfold get_db_url_by_code. intros Hnone Hin.
  apply in_map_iff in Hin as (r & Hc & Hr).
  apply (find_none _ _ Hnone) in Hr. apply has_code_true in Hc. congruence.
Qed.

Lemma db_wf_insert db target code :
  db_wf db -> get_db_url_by_code code db = None ->
  db_wf {| rows := rows db ++ [stored_row target code db];
           next_id := next_id db + 1 |}.
Proof.
  intros [Hids Hcodes Hkeys] Hfree. split; simpl.
  - rewrite map_app. simpl. apply NoDup_app. repeat split.
    + exact Hids.
    + intros o Ho Ho'. apply list_elem_of_In in Ho, Ho'.
      destruct Ho' as [<-|[]].
      apply in_map_iff in Ho as (r & Hr & Hin).
      destruct (Hkeys r Hin) as (i & Hi & Hlt). rewrite Hi in Hr.
      injection Hr as ->. lia.
    + apply NoDup_singleton.
  - rewrite map_app. simpl. apply NoDup_app. repeat split.
    + exact Hcodes.
    + intros c Hc Hc'. apply list_elem_of_In in Hc, Hc'.
      destruct Hc' as [<-|[]]. now apply (lookup_none_not_in code db).
    + apply NoDup_singleton.
  - intros r Hin. apply in_app_or in Hin as [Hin|[<-|[]]].
    + destruct (Hkeys r Hin) as (i & Hi & Hlt). exists i. split; [exact Hi|lia].
    + exists (next_id db). split; [reflexivity|lia].
Qed.

Lemma db_wf_update obj db : db_wf db -> db_wf (update_rows obj db).
Proof.
  set (f := fun r : URL.t => if decide (URL.id r = URL.id obj)
                             then URL.with_clicks (URL.clicks obj) r else r).
  assert (Hid : forall r, URL.id (f r) = URL.id r)
    by (intros r; unfold f; now destruct (decide _)).
  assert (Hcode : forall r, URL.short_code (f r) = URL.short_code r)
    by (intros r; unfold f; now destruct (decide _)).
  intros [Hids Hcodes Hkeys]. unfold update_rows. fold f.
  split; simpl.
  - rewrite List.map_map. erewrite map_ext; [exact Hids | exact Hid].
  - rewrite List.map_map. erewrite map_ext; [exact Hcodes | exact Hcode].
  - intros r Hin. apply in_map_iff in Hin as (r0 & <- & Hin).
    rewrite Hid. now apply Hkeys.
Qed.

(** POST /shorten has two outcomes: the conflict, which changes nothing, or
    a created record; the unique index is never hit after the existence
    check. *)
Lemma create_short_url_outcomes fuel url w resp w' :
  create_short_url fuel url w = Some (resp, w') ->
  (resp = HTTPException 409 /\ w' = w)
  \/ exists r, resp = Created r.
Proof.
  destruct (truthy (URLCreate.short_code url)) eqn:T.
  - apply truthy_true_inv in T as (c & Hc & Hne).
    rewrite (create_short_url_explicit fuel url w c Hc Hne).
    destruct (get_db_url_by_code c (session w)); intros [= <- <-]; eauto.
  - rewrite (create_short_url_auto fuel url w T).
    destruct (draw_unused fuel (secrets w) (session w)) as [[c e]|];
      [|discriminate].
    intros [= <- <-]; eauto.
Qed.

Lemma db_wf_create fuel url w resp w' :
  db_wf (session w) -> create_short_url fuel url w = Some (resp, w') ->
  db_wf (session w').
Proof.
  intros Hwf Hrun.
  destruct (create_short_url_outcomes _ _ _ _ _ Hrun) as [[_ ->]|[r ->]];
    [exact Hwf|].
  apply create_short_url_created in Hrun as (e & Hfree & Hr & ->).
  simpl. rewrite Hr. now apply db_wf_insert.
Qed.

Lemma redirect_unreachable code w :
  redis_client w = Some Redis.Unreachable ->
  redirect_to_target_url code w = (Unhandled, w).
Proof. intros Hrc. unfold redirect_to_target_url. now rewrite Hrc. Qed.

(** The three ways the cache lookup of a request can go. *)
Lemma cache_lookup_cases code w :
  redis_client w = Some Redis.Unreachable
  \/ (exists kv u, redis_client w = Some (Redis.Connected kv)
                   /\ kv !! code = Some u /\ u <> "")
  \/ cache_miss code w.
Proof.
  unfold cache_miss. destruct (redis_client w) as [[kv|]|]; auto.
  right. destruct (truthy (kv !! code)) eqn:T; [left|right; right; eauto].
  apply truthy_true_inv in T as (u & Hu & Hne). eauto.
Qed.

Lemma db_wf_redirect code w :
  db_wf (session w) -> db_wf (session (snd (redirect_to_target_url code w))).
Proof.
  intros Hwf.
  destruct (cache_lookup_cases code w) as [Hdown|[(kv & u & Hrc & Hkv & Hne)|Hmiss]].
  - now rewrite redirect_unreachable.
  - now rewrite (redirect_hit code w kv u).
  - rewrite (redirect_miss code w Hmiss).
    destruct (get_db_url_by_code code (session w)) as [r|]; [|exact Hwf].
    destruct (URL.is_active r); [|exact Hwf].
    destruct (fits_integer (URL.clicks r + 1)); [|exact Hwf].
    simpl. now apply db_wf_update.
Qed.

Lemma create_short_url_keeps_cache fuel url w resp w' :
  create_short_url fuel url w = Some (resp, w') ->
  redis_client w' = redis_client w.
Proof.
  intros Hrun.
  destruct (create_short_url_outcomes _ _ _ _ _ Hrun) as [[_ ->]|[r ->]];
    [reflexivity|].
  now apply create_short_url_created in Hrun as (e & _ & _ & ->).
Qed.

Lemma coherent_start rc e :
  cold rc ->
  coherent {| redis_client := rc; session := empty_db; secrets := e |}.
Proof.
  intros H kv code u Hrc Hkv. simpl in Hrc.
  destruct H as [ -> | [ -> | -> ] ]; try discriminate.
  injection Hrc as <-. now rewrite lookup_empty in Hkv.
Qed.

Lemma coherent_create fuel url w resp w' :
  coherent w -> create_short_url fuel url w = Some (resp, w') -> coherent w'.
Proof.
  intros Hco Hrun.
  destruct (create_short_url_outcomes _ _ _ _ _ Hrun) as [[_ ->]|[r ->]];
    [exact Hco|].
  apply create_short_url_created in Hrun as (e & _ & _ & ->).
  intros kv code u Hrc Hkv. simpl in Hrc.
  destruct (Hco kv code u Hrc Hkv) as (r0 & Hr0 & Hu).
  exists r0. split; [|exact Hu]. simpl.
  rewrite (lookup_after_insert code r (session w)). now rewrite Hr0.
Qed.

Lemma coherent_redirect code w :
  coherent w -> coherent (snd (redirect_to_target_url code w)).
Proof.
  intros Hco.
  destruct (cache_lookup_cases code w) as [Hdown|[(kv & u & Hrc & Hkv & Hne)|Hmiss]].
  - now rewrite redirect_unreachable.
  - now rewrite (redirect_hit code w kv u).
  - rewrite (redirect_miss code w Hmiss).
    destruct (get_db_url_by_code code (session w)) as [r|] eqn:Hr; [|exact Hco].
    destruct (URL.is_active r); [|exact Hco].
    assert (Hold : forall kv' code' u,
      primed_cache code (URL.target_url r) (redis_client w)
      = Some (Redis.Connected kv') ->
      kv' !! code' = Some u ->
      exists r0, get_db_url_by_code code' (session w) = Some r0
                 /\ URL.target_url r0 = u).
    { intros kv' code' u Hrc' Hkv'.
      destruct (redis_client w) as [[kv|]|] eqn:Hrc; simpl in Hrc';
        try discriminate.
      injection Hrc' as <-.
      destruct (decide (code = code')) as [<-|Hne].
      - rewrite lookup_insert_eq in Hkv'. injection Hkv' as <-. eauto.
      - rewrite lookup_insert_ne in Hkv' by exact Hne.
        exact (Hco kv code' u Hrc Hkv'). }
    destruct (fits_integer (URL.clicks r + 1)).
    + intros kv' code' u Hrc' Hkv'. simpl in Hrc'. cbn [snd session].
      destruct (Hold kv' code' u Hrc' Hkv') as (r0 & Hr0 & Hu).
      rewrite lookup_after_update, Hr0.
      eexists; split; [reflexivity|]. now destruct (decide _).
    + intros kv' code' u Hrc' Hkv'. simpl in Hrc'. cbn [snd session].
      exact (Hold kv' code' u Hrc' Hkv').
Qed.

(** Both invariants hold in every world the service can reach. *)
Lemma reachable_invariants w : reachable w -> db_wf (session w) /\ coherent w.
Proof.
  induction 1 as [rc e Hcold | q w resp w' _ [Hwf Hco] Hserve].
  - split; [apply db_wf_empty | now apply coherent_start].
  - destruct q as [fuel url | code | code]; simpl in Hserve.
    + split; [eapply db_wf_create | eapply coherent_create]; eassumption.
    + injection Hserve as _ <-. auto.
    + assert (w' = snd (redirect_to_target_url code w)) as ->
        by (destruct (redirect_to_target_url code w); simpl; congruence).
      split; [now apply db_wf_redirect | now apply coherent_redirect].
Qed.

(** C2, counterexample: a row whose counter is at the largest value of the
    INTEGER column.  The Cache does not hold its code and it is active, but
    the commit of 2147483648 is rejected: the request ends in an unhandled
    error and the stats still report the old counter. *)
Lemma saturated_counter_is_not_incremented :
  let kv : gmap string string := ∅ in
  let w := world (Some (Redis.Connected kv))
             (one_row "abc1234" google true 2147483647) in
  let out := redirect_to_target_url "abc1234" w in
  kv !! "abc1234" = None
  /\ get_url_stats "abc1234" w = Stats "abc1234" google 2147483647 true
  /\ fst out = Unhandled
  /\ get_url_stats "abc1234" (snd out)
     = Stats "abc1234" google 2147483647 true
  /\ get_url_stats "abc1234" (snd out)
     <> Stats "abc1234" google (2147483647 + 1) true.
Proof.
  simpl. split; [reflexivity|]. split; [reflexivity|].
  split; [reflexivity|]. split; [reflexivity|]. vm_compute. discriminate.
Qed.

(** C2, as amended: resolving an existing, active code that the Cache does
    not hold, with the row's counter below the largest INTEGER, redirects to
    its target, raises that counter in the Store by exactly 1 (the row's
    other fields and every other code's row are as before), and leaves the
    pair code -> target in the Cache. *)
Theorem miss_counts_one_click_and_primes code w kv r :
  db_wf (session w) ->
  redis_client w = Some (Redis.Connected kv) -> kv !! code = None ->
  get_db_url_by_code code (session w) = Some r -> URL.is_active r = true ->
  INTEGER_MIN <= URL.clicks r < INTEGER_MAX ->
  let out := redirect_to_target_url code w in
  fst out = RedirectResponse (URL.target_url r) 307
  /\ get_db_url_by_code code (session (snd out))
     = Some {| URL.id := URL.id r; URL.target_url := URL.target_url r;
               URL.short_code := URL.short_code r;
               URL.is_active := URL.is_active r;
               URL.clicks := URL.clicks r + 1 |}
  /\ get_url_stats code (snd out)
     = Stats code (URL.target_url r) (URL.clicks r + 1) true
  /\ (forall other, other <> code ->
        get_db_url_by_code other (session (snd out))
        = get_db_url_by_code other (session w))
  /\ redis_client (snd out)
     = Some (Redis.Connected (<[code := URL.target_url r]> kv)).
Proof.
  intros Hwf Hrc Hkv Hr Hon Hrange out. subst out.
  assert (Hmiss : cache_miss code w)
    by (right; exists kv; now rewrite Hkv).
  assert (Hfits : fits_integer (URL.clicks r + 1) = true).
  { unfold fits_integer, INTEGER_MIN, INTEGER_MAX in *.
    apply andb_true_intro. split; apply Z.leb_le; lia. }
  assert (Hnew : get_db_url_by_code code
            (update_rows (URL.with_clicks (URL.clicks r + 1) r) (session w))
          = Some {| URL.id := URL.id r; URL.target_url := URL.target_url r;
                    URL.short_code := URL.short_code r;
                    URL.is_active := URL.is_active r;
                    URL.clicks := URL.clicks r + 1 |}).
  { rewrite lookup_after_update, Hr. simpl.
    destruct (decide (URL.id r = URL.id r)); [reflexivity|contradiction]. }
  rewrite (redirect_miss code w Hmiss), Hr, Hon, Hfits.
  rewrite Hon in Hnew. simpl.
  split; [reflexivity|]. split; [exact Hnew|]. split; [|split].
  - unfold get_url_stats. simpl. rewrite Hnew. simpl.
    apply lookup_code_sound in Hr as [_ ->]. reflexivity.
  - intros other Hne. rewrite lookup_after_update.
    destruct (get_db_url_by_code other (session w)) as [r'|] eqn:Hr';
      [|reflexivity].
    simpl. destruct (decide (URL.id r' = URL.id r)) as [Hid|]; [|reflexivity].
    exfalso. apply Hne.
    apply lookup_code_sound in Hr as [Hin Hc], Hr' as [Hin' Hc'].
    rewrite <- Hc, <- Hc'. f_equal.
    exact (in_map_fst_eq URL.id _ _ _ (wf_ids _ Hwf) Hin' Hin Hid).
  - now rewrite Hrc.
Qed.

(** C5, as amended: on the Store path (no Cache client, or a lookup that
    yields no URL), a code that is absent from the Store or whose row is
    inactive gets 404, and nothing is written. *)
Theorem store_path_not_found code w :
  cache_miss code w ->
  get_db_url_by_code code (session w) = None
  \/ (exists r, get_db_url_by_code code (session w) = Some r
                /\ URL.is_active r = false) ->
  redirect_to_target_url code w = (HTTPException 404, w).
Proof.
  intros Hmiss Hrow. rewrite (redirect_miss code w Hmiss).
  destruct Hrow as [ -> | (r & -> & ->) ]; reflexivity.
Qed.

Lemma allocatable_creates fuel url w :
  allocatable fuel url w ->
  exists r w', create_short_url fuel url w = Some (Created r, w').
Proof.
  intros [(c & Hc & Hne & Hfree)|(Hauto & k & Hk & Hfree)].
  - rewrite (create_short_url_explicit fuel url w c Hc Hne), Hfree. eauto.
  - rewrite (create_short_url_auto fuel url w Hauto).
    destruct (draw_unused_complete fuel _ _ k Hk Hfree) as (c & e & ->). eauto.
Qed.

Lemma created_then_resolved fuel url w r w' :
  coherent w -> cache_available w ->
  create_short_url fuel url w = Some (Created r, w') ->
  fst (redirect_to_target_url (URL.short_code r) w')
  = RedirectResponse (URLCreate.target_url url) 307.
Proof.
  intros Hco Hup Hrun.
  apply create_short_url_created in Hrun as (e & Hfree & Hr & ->).
  set (code := URL.short_code r) in *.
  assert (Hmiss : cache_miss code (after_insert r e w)).
  { unfold cache_miss; simpl. destruct (redis_client w) as [[kv|]|] eqn:Hrc.
    - right. exists kv. split; [reflexivity|].
      destruct (kv !! code) as [u|] eqn:Hkv; [|reflexivity].
      destruct (Hco kv code u Hrc Hkv) as (r0 & Hr0 & _). congruence.
    - now contradiction Hup.
    - now left. }
  rewrite (redirect_miss code _ Hmiss). simpl.
  rewrite (lookup_after_insert code r (session w)), Hfree.
  assert (Hhas : has_code code r = true) by now apply has_code_true.
  rewrite Hhas, Hr. reflexivity.
Qed.

(** The round trip where the Cache works: with the Cache coherent with the
    Store and not failing, a record returned by POST /shorten resolves, by
    GET on its code, to a redirect to the target that was posted; and POST
    /shorten does return a record whenever the supplied code is unused or
    the loop meets an unused candidate. *)
Theorem create_then_resolve_round_trip fuel url w :
  coherent w -> cache_available w ->
  (forall r w',
     create_short_url fuel url w = Some (Created r, w') ->
     fst (redirect_to_target_url (URL.short_code r) w')
     = RedirectResponse (URLCreate.target_url url) 307)
  /\ (allocatable fuel url w ->
      exists r w',
        create_short_url fuel url w = Some (Created r, w')
        /\ fst (redirect_to_target_url (URL.short_code r) w')
           = RedirectResponse (URLCreate.target_url url) 307).
Proof.
  intros Hco Hup. split.
  - intros r w'. now apply created_then_resolved.
  - intros Hok. destruct (allocatable_creates fuel url w Hok) as (r & w' & Hrun).
    exists r, w'. split; [exact Hrun|]. now apply (created_then_resolved fuel url w).
Qed.

(** ** The Cache on the write path and under failure *)

Lemma create_short_url_ignores_cache fuel url w rc :
  visible (create_short_url fuel url (with_redis rc w))
  = visible (create_short_url fuel url w).
Proof.
  unfold create_short_url, visible, with_redis; simpl.
  destruct (truthy (URLCreate.short_code url)).
  - destruct (get_db_url_by_code _ (session w)); [reflexivity|].
    destruct (session_insert _ (session w)) as [[db_url|] db']; reflexivity.
  - destruct (draw_unused fuel (secrets w) (session w)) as [[c e]|];
      [|reflexivity].
    destruct (session_insert _ (session w)) as [[db_url|] db']; reflexivity.
Qed.

(** C1, on the code: a service that started while Redis could not be
    reached keeps its client.  There POST /shorten stores and returns the
    record, and GET on the returned code ends in an unhandled error instead
    of the redirect to the posted target; the same two requests in a process
    without a client do round-trip. *)
Theorem round_trip_breaks_when_cache_unreachable :
  let req := URLCreate.mk google None in
  let down := world (Some Redis.Unreachable) empty_db in
  let off := world None empty_db in
  (exists b, lifespan (fun _ => true) None Redis.Unreachable counting
             = Serving down b)
  /\ (exists r w',
        create_short_url 1 req down = Some (Created r, w')
        /\ URL.target_url r = google
        /\ get_db_url_by_code (URL.short_code r) (session w') = Some r
        /\ fst (redirect_to_target_url (URL.short_code r) w') = Unhandled)
  /\ (exists r w',
        create_short_url 1 req off = Some (Created r, w')
        /\ fst (redirect_to_target_url (URL.short_code r) w')
           = RedirectResponse google 307).
Proof.
  simpl. split; [eexists; reflexivity|]. split.
  - eexists. eexists. split; [vm_compute; reflexivity|].
    split; [reflexivity|]. split; reflexivity.
  - eexists. eexists. split; [vm_compute; reflexivity|]. reflexivity.
Qed.

(** C7, on the code: POST /shorten with a reachable, empty Cache stores the
    record and returns it, but the Cache is still empty afterwards (the
    [set] coroutine is never awaited); the next resolve of the code is a
    miss, served from the Store, and counts a click. *)
Theorem create_does_not_prime_cache :
  let w := world (Some (Redis.Connected ∅)) empty_db in
  let req := URLCreate.mk google (Some "abc1234") in
  exists r w',
    create_short_url 0 req w = Some (Created r, w')
    /\ URL.short_code r = "abc1234"
    /\ get_db_url_by_code "abc1234" (session w') = Some r
    /\ redis_client w' = Some (Redis.Connected ∅)
    /\ cache_miss "abc1234" w'
    /\ get_db_url_by_code "abc1234"
         (session (snd (redirect_to_target_url "abc1234" w')))
       = Some (URL.with_clicks 1 r).
Proof.
  simpl. eexists. eexists. split; [vm_compute; reflexivity|].
  repeat split; try reflexivity.
  right. exists ∅. split; reflexivity.
Qed.

(** C8, on the code: a service that started while Redis could not be
    reached keeps its client.  Resolving an existing active code there ends
    in an unhandled error and changes nothing, where the process without a
    client, on the Store-only path, redirects. *)
Theorem unreachable_cache_fails_resolve :
  let db := one_row "abc1234" google true 0 in
  let down := world (Some Redis.Unreachable) db in
  let off := world None db in
  (exists b, lifespan (fun _ => true) (Some db) Redis.Unreachable counting
             = Serving down b)
  /\ fst (redirect_to_target_url "abc1234" off) = RedirectResponse google 307
  /\ redirect_to_target_url "abc1234" down = (Unhandled, down)
  /\ fst (redirect_to_target_url "abc1234" down)
     <> fst (redirect_to_target_url "abc1234" off).
Proof.
  simpl. split; [eexists; reflexivity|]. split; [reflexivity|].
  split; [reflexivity|]. vm_compute. discriminate.
Qed.

(** ** The click counter under concurrent requests *)

Lemma run_alone_is_the_handler code w :
  run_alone code w
  = (Done (fst (redirect_to_target_url code w)),
     snd (redirect_to_target_url code w)).
Proof.
  unfold run_alone, redirect_to_target_url. destruct w as [rc db e]; simpl.
  destruct rc as [[kv|]|]; simpl; trivial.
  - destruct (truthy (kv !! code)); simpl; trivial.
    destruct (get_db_url_by_code code db) as [r|]; simpl; trivial.
    destruct (URL.is_active r); simpl; trivial.
    destruct (session_update_clicks _ db); reflexivity.
  - destruct (get_db_url_by_code code db) as [r|]; simpl; trivial.
    destruct (URL.is_active r); simpl; trivial.
    destruct (session_update_clicks _ db); reflexivity.
Qed.

(** C9, counterexample: two requests for the same uncached code, resumed in
    turn.  Both read the row with [clicks = 0] before either commits, both
    redirect, and the stats end at 1 click, not 2: one click is lost. *)
Lemma concurrent_misses_lose_a_click :
  let row := row_of "abc1234" google true 0 in
  let w := world (Some (Redis.Connected ∅)) (one_row "abc1234" google true 0) in
  let reads := interleave [true; false; true; false] "abc1234" Start Start w in
  let ends :=
    interleave [true; false; true; false; true; false] "abc1234" Start Start w in
  get_url_stats "abc1234" w = Stats "abc1234" google 0 true
  /\ fst reads = (Primed row, Primed row)
  /\ fst ends = (Done (RedirectResponse google 307),
                 Done (RedirectResponse google 307))
  /\ get_url_stats "abc1234" (snd ends) = Stats "abc1234" google 1 true
  /\ get_url_stats "abc1234" (snd ends) <> Stats "abc1234" google 2 true.
Proof.
  simpl. split; [reflexivity|]. split; [reflexivity|].
  split; [reflexivity|]. split; [reflexivity|]. vm_compute. discriminate.
Qed.

Lemma fits_integer_next n :
  INTEGER_MIN <= n < INTEGER_MAX -> fits_integer (n + 1) = true.
Proof.
  unfold fits_integer, INTEGER_MIN, INTEGER_MAX. intros Hn.
  apply andb_true_intro. split; apply Z.leb_le; lia.
Qed.

(** The stats of a code once the row it names was committed with counter
    [n]: the row's other fields, and [n]. *)
Lemma stats_after_update code obj db stored :
  get_db_url_by_code code db = Some stored -> URL.id stored = URL.id obj ->
  get_db_url_by_code code (update_rows obj db)
  = Some {| URL.id := URL.id stored; URL.target_url := URL.target_url stored;
            URL.short_code := URL.short_code stored;
            URL.is_active := URL.is_active stored;
            URL.clicks := URL.clicks obj |}.
Proof.
  intros Hs Hid. rewrite lookup_after_update, Hs.
  destruct (decide (URL.id stored = URL.id obj)); [reflexivity|contradiction].
Qed.

Lemma step_start code w kv :
  redis_client w = Some (Redis.Connected kv) ->
  step code Start w = (GotCache (kv !! code), w).
Proof. intros Hrc. unfold step. now rewrite Hrc. Qed.

Lemma step_read code w kv v r :
  redis_client w = Some (Redis.Connected kv) -> truthy v = false ->
  get_db_url_by_code code (session w) = Some r -> URL.is_active r = true ->
  step code (GotCache v) w
  = (Primed r,
     with_redis (Some (Redis.Connected (<[code := URL.target_url r]> kv))) w).
Proof.
  intros Hrc Hv Hr Hon. unfold step. now rewrite Hv, Hr, Hon, Hrc.
Qed.

Lemma step_commit code w db_url :
  fits_integer (URL.clicks db_url + 1) = true ->
  step code (Primed db_url) w
  = (Done (RedirectResponse (URL.target_url db_url) 307),
     with_session
       (update_rows (URL.with_clicks (URL.clicks db_url + 1) db_url)
          (session w)) w).
Proof.
  intros Hfits. unfold step, session_update_clicks.
  cbn [URL.with_clicks URL.clicks]. now rewrite Hfits.
Qed.

(** C9, as amended: the click increment is a read-modify-write in the
    handler.  The handler is its three resumptions run in a row and, run
    alone on a miss, raises the stored counter by exactly 1.  Its last
    resumption commits the counter that the request read earlier plus 1,
    whatever counter the row holds in the Store by then.  So two requests
    for the same uncached code that both read before either commits both
    redirect and leave the counter raised by 1 only. *)
Theorem click_increment_is_read_modify_write code w kv r :
  redis_client w = Some (Redis.Connected kv) -> truthy (kv !! code) = false ->
  get_db_url_by_code code (session w) = Some r -> URL.is_active r = true ->
  INTEGER_MIN <= URL.clicks r < INTEGER_MAX ->
  run_alone code w
  = (Done (fst (redirect_to_target_url code w)),
     snd (redirect_to_target_url code w))
  /\ fst (redirect_to_target_url code w)
     = RedirectResponse (URL.target_url r) 307
  /\ get_url_stats code (snd (redirect_to_target_url code w))
     = Stats code (URL.target_url r) (URL.clicks r + 1) true
  /\ (forall w2 stored,
        get_db_url_by_code code (session w2) = Some stored ->
        URL.id stored = URL.id r ->
        fst (step code (Primed r) w2)
        = Done (RedirectResponse (URL.target_url r) 307)
        /\ get_url_stats code (snd (step code (Primed r) w2))
           = Stats (URL.short_code stored) (URL.target_url stored)
                   (URL.clicks r + 1) (URL.is_active stored))
  /\ (let reads :=
        interleave [true; false; true; false] code Start Start w in
      let ends :=
        interleave [true; false; true; false; true; false]
          code Start Start w in
      fst reads = (Primed r, Primed r)
      /\ fst ends = (Done (RedirectResponse (URL.target_url r) 307),
                     Done (RedirectResponse (URL.target_url r) 307))
      /\ get_url_stats code (snd ends)
         = Stats code (URL.target_url r) (URL.clicks r + 1) true).
Proof.
  intros Hrc Hkv Hr Hon Hrange.
  pose proof (fits_integer_next _ Hrange) as Hfits.
  pose proof (lookup_code_sound _ _ _ Hr) as [_ Hcode].
  assert (Hmiss : cache_miss code w) by (right; eauto).
  set (obj := URL.with_clicks (URL.clicks r + 1) r).
  assert (Hone : get_db_url_by_code code (update_rows obj (session w))
                 = Some {| URL.id := URL.id r;
                           URL.target_url := URL.target_url r;
                           URL.short_code := URL.short_code r;
                           URL.is_active := URL.is_active r;
                           URL.clicks := URL.clicks r + 1 |})
    by (apply (stats_after_update code obj (session w) r Hr); reflexivity).
  split; [apply run_alone_is_the_handler|].
  rewrite (redirect_miss code w Hmiss), Hr, Hon, Hfits. cbn [fst snd session].
  fold obj. split; [reflexivity|]. split; [|split].
  - unfold get_url_stats. cbn [session]. rewrite Hone. cbn.
    now rewrite Hcode, Hon.
  - intros w2 stored Hs Hid. rewrite (step_commit code w2 r Hfits).
    cbn [fst snd]. split; [reflexivity|].
    unfold get_url_stats, with_session. cbn [session]. fold obj.
    rewrite (stats_after_update code obj (session w2) stored Hs Hid).
    reflexivity.
  - set (kv1 := <[code := URL.target_url r]> kv).
    set (kv2 := <[code := URL.target_url r]> kv1).
    set (w1 := with_redis (Some (Redis.Connected kv1)) w).
    set (w2 := with_redis (Some (Redis.Connected kv2)) w1).
    set (w3 := with_session (update_rows obj (session w2)) w2).
    assert (Hreads : interleave [true; false; true; false] code Start Start w
                     = (Primed r, Primed r, w2)).
    { cbn [interleave]. rewrite (step_start code w kv Hrc).
      rewrite (step_start code w kv Hrc).
      rewrite (step_read code w kv _ r Hrc Hkv Hr Hon). fold kv1 w1.
      rewrite (step_read code w1 kv1 _ r eq_refl Hkv Hr Hon). reflexivity. }
    assert (Hends : interleave [true; false; true; false; true; false]
                      code Start Start w
                    = (Done (RedirectResponse (URL.target_url r) 307),
                       Done (RedirectResponse (URL.target_url r) 307),
                       with_session (update_rows obj (session w3)) w3)).
    { cbn [interleave]. rewrite (step_start code w kv Hrc).
      rewrite (step_start code w kv Hrc).
      rewrite (step_read code w kv _ r Hrc Hkv Hr Hon). fold kv1 w1.
      rewrite (step_read code w1 kv1 _ r eq_refl Hkv Hr Hon). fold kv2 w2.
      rewrite (step_commit code w2 r Hfits). fold obj w3.
      rewrite (step_commit code w3 r Hfits). reflexivity. }
    cbv zeta. rewrite Hreads, Hends. cbn [fst snd].
    split; [reflexivity|]. split; [reflexivity|].
    unfold get_url_stats.
    change (session (with_session (update_rows obj (session w3)) w3))
      with (update_rows obj (update_rows obj (session w))).
    rewrite (stats_after_update code obj (update_rows obj (session w))
               {| URL.id := URL.id r; URL.target_url := URL.target_url r;
                  URL.short_code := URL.short_code r;
                  URL.is_active := URL.is_active r;
                  URL.clicks := URL.clicks r + 1 |} Hone eq_refl).
    cbn. now rewrite Hcode, Hon.
Qed.

(** C5, counterexample: an inactive row whose pair is still in the Cache is
    served from the Cache. *)
Lemma stale_cache_serves_inactive :
  let cache := Some (Redis.Connected {[ "abc1234" := google ]}) in
  let w := world cache (one_row "abc1234" google false 0) in
  (exists r, get_db_url_by_code "abc1234" (session w) = Some r
             /\ URL.is_active r = false)
  /\ fst (redirect_to_target_url "abc1234" w) = RedirectResponse google 307
  /\ fst (redirect_to_target_url "abc1234" w) <> HTTPException 404.
Proof.
  simpl. split; [eexists; split; reflexivity|].
  split; [reflexivity | vm_compute; discriminate].
Qed.

(** ** The theorems at concrete requests *)

Lemma db_wf_one_row code target active n :
  db_wf (one_row code target active n).
Proof.
  split; simpl.
  - apply NoDup_singleton.
  - apply NoDup_singleton.
  - intros r [<-|[]]. exists 1. split; [reflexivity|lia].
Qed.

Lemma create_then_resolve_round_trip_witness :
  let w := world (Some (Redis.Connected ∅)) empty_db in
  let req := URLCreate.mk google None in
  exists r w',
    create_short_url 1 req w = Some (Created r, w')
    /\ fst (redirect_to_target_url (URL.short_code r) w')
       = RedirectResponse google 307.
Proof.
  intros w req.
  refine (proj2 (create_then_resolve_round_trip 1 req w _ _) _).
  - apply (coherent_start _ counting). right; left; reflexivity.
  - unfold cache_available; simpl; discriminate.
  - right. split; [reflexivity|]. exists 0%nat. split; [lia|].
    vm_compute. reflexivity.
Defined.

Lemma miss_counts_one_click_and_primes_witness :
  let w := world (Some (Redis.Connected ∅)) (one_row "abc1234" google true 41) in
  let out := redirect_to_target_url "abc1234" w in
  get_url_stats "abc1234" w = Stats "abc1234" google 41 true
  /\ fst out = RedirectResponse google 307
  /\ get_db_url_by_code "abc1234" (session (snd out))
     = Some {| URL.id := Some 1; URL.target_url := google;
               URL.short_code := "abc1234"; URL.is_active := true;
               URL.clicks := 41 + 1 |}
  /\ get_url_stats "abc1234" (snd out) = Stats "abc1234" google (41 + 1) true
  /\ (forall other, other <> "abc1234" ->
        get_db_url_by_code other (session (snd out))
        = get_db_url_by_code other (session w))
  /\ redis_client (snd out)
     = Some (Redis.Connected (<["abc1234" := google]> ∅)).
Proof.
  intros w. split; [reflexivity|].
  apply (miss_counts_one_click_and_primes "abc1234" w ∅
           (row_of "abc1234" google true 41)).
  - apply db_wf_one_row.
  - reflexivity.
  - reflexivity.
  - reflexivity.
  - reflexivity.
  - unfold INTEGER_MIN, INTEGER_MAX. simpl. lia.
Defined.

Lemma cache_hit_no_click_witness :
  let kv : gmap string string := {[ "abc1234" := google ]} in
  let w := world (Some (Redis.Connected kv)) (one_row "abc1234" google true 0) in
  fst (redirect_to_target_url "abc1234" w) = RedirectResponse google 307
  /\ session (snd (redirect_to_target_url "abc1234" w)) = session w
  /\ snd (redirect_to_target_url "abc1234" w) = w.
Proof.
  intros kv w. apply (cache_hit_no_click "abc1234" w kv google).
  - reflexivity.
  - reflexivity.
  - discriminate.
Defined.

Lemma taken_code_conflict_witness :
  let w := world None (one_row "abc1234" "https://x.com" true 0) in
  create_short_url 0 (URLCreate.mk "https://x.com" (Some "abc1234")) w
  = Some (HTTPException 409, w).
Proof.
  intros w.
  apply (taken_code_conflict 0 _ w "abc1234"
           (row_of "abc1234" "https://x.com" true 0)).
  - reflexivity.
  - discriminate.
  - reflexivity.
Defined.

Lemma store_path_not_found_witness :
  let w := world (Some (Redis.Connected ∅)) (one_row "abc1234" google false 0) in
  redirect_to_target_url "abc1234" w = (HTTPException 404, w)
  /\ redirect_to_target_url "zzzzzzz" w = (HTTPException 404, w).
Proof.
  intros w. split.
  - apply (store_path_not_found "abc1234" w).
    + right. exists ∅. split; reflexivity.
    + right. exists (row_of "abc1234" google false 0). split; reflexivity.
  - apply (store_path_not_found "zzzzzzz" w).
    + right. exists ∅. split; reflexivity.
    + left. reflexivity.
Defined.


Lemma click_increment_is_read_modify_write_witness :
  let row := row_of "abc1234" google true 5 in
  let w := world (Some (Redis.Connected ∅)) (one_row "abc1234" google true 5) in
  let w2 := world None (one_row "abc1234" google true 9) in
  let ends :=
    interleave [true; false; true; false; true; false] "abc1234" Start Start w in
  get_url_stats "abc1234" (snd (redirect_to_target_url "abc1234" w))
  = Stats "abc1234" google (5 + 1) true
  /\ get_url_stats "abc1234" w2 = Stats "abc1234" google 9 true
  /\ get_url_stats "abc1234" (snd (step "abc1234" (Primed row) w2))
     = Stats "abc1234" google (5 + 1) true
  /\ fst ends = (Done (RedirectResponse google 307),
                 Done (RedirectResponse google 307))
  /\ get_url_stats "abc1234" (snd ends) = Stats "abc1234" google (5 + 1) true.
Proof.
  intros row w w2 ends.
  destruct (click_increment_is_read_modify_write "abc1234" w ∅ row)
    as (_ & _ & Halone & Hcommit & _ & Hends & Hlost).
  - reflexivity.
  - reflexivity.
  - reflexivity.
  - reflexivity.
  - unfold INTEGER_MIN, INTEGER_MAX. simpl. lia.
  - split; [exact Halone|]. split; [reflexivity|].
    split; [|split; [exact Hends | exact Hlost]].
    apply (Hcommit w2 (row_of "abc1234" google true 9)); reflexivity.
Defined.

Lemma stats_ignore_is_active_witness :
  let w := world None (one_row "abc1234" google false 3) in
  get_url_stats "abc1234" w = Stats "abc1234" google 3 false
  /\ fst (redirect_to_target_url "abc1234" w) = HTTPException 404.
Proof.
  intros w.
  destruct (stats_ignore_is_active "abc1234" w (row_of "abc1234" google false 3)
              eq_refl) as (Hstats & _ & H404).
  split; [exact Hstats|]. apply H404; [reflexivity|]. left. reflexivity.
Defined.

(** * Further properties of the handlers *)

(** The generator, for any requested length: the code has that length, all
    its characters are in the alphabet, and exactly that many random numbers
    were consumed; length 0 gives the empty code. *)
Theorem generate_short_code_any_length n e :
  String.length (fst (generate_short_code n e)) = n
  /\ Forall in_alphabet (list_ascii_of_string (fst (generate_short_code n e)))
  /\ urandom (snd (generate_short_code n e)) = urandom e
  /\ cursor (snd (generate_short_code n e)) = (n + cursor e)%nat
  /\ fst (generate_short_code 0 e) = "".
Proof.
  rewrite generate_short_code_cursor.
  split; [apply generate_short_code_length|].
  split; [apply generate_short_code_alphabet|]. repeat split.
Qed.

Lemma auto_code_has_length_7 fuel url w r w' :
  truthy (URLCreate.short_code url) = false ->
  create_short_url fuel url w = Some (Created r, w') ->
  String.length (URL.short_code r) = 7%nat.
Proof.
  intros T. rewrite (create_short_url_auto fuel url w T).
  destruct (draw_unused fuel (secrets w) (session w)) as [[c e]|] eqn:E;
    [|discriminate].
  apply draw_unused_sound in E as (j & _ & Hc & _).
  intros [= <- <-]. simpl. rewrite Hc. apply generate_short_code_length.
Qed.

Lemma created_code_nonempty fuel url w r w' :
  create_short_url fuel url w = Some (Created r, w') -> URL.short_code r <> "".
Proof.
  destruct (truthy (URLCreate.short_code url)) eqn:T.
  - apply truthy_true_inv in T as (c & Hc & Hne).
    rewrite (create_short_url_explicit fuel url w c Hc Hne).
    destruct (get_db_url_by_code c (session w)); [discriminate|].
    intros [= <- <-]. exact Hne.
  - intros Hrun Hempty.
    pose proof (auto_code_has_length_7 fuel url w r w' T Hrun) as Hlen.
    rewrite Hempty in Hlen. discriminate.
Qed.


(** Once a record was created, a POST /shorten that asks for its code, with
    whatever target, is refused with 409 and changes nothing. *)
Theorem second_post_same_code_conflicts fuel url w r w' fuel2 url2 :
  create_short_url fuel url w = Some (Created r, w') ->
  URLCreate.short_code url2 = Some (URL.short_code r) ->
  create_short_url fuel2 url2 w' = Some (HTTPException 409, w').
Proof.
  intros Hrun Hsame.
  pose proof (created_code_nonempty _ _ _ _ _ Hrun) as Hne.
  apply create_short_url_created in Hrun as (e & Hfree & _ & ->).
  rewrite (create_short_url_explicit fuel2 url2 _ _ Hsame Hne). simpl.
  rewrite (lookup_after_insert (URL.short_code r) r (session w)), Hfree.
  assert (Hhas : has_code (URL.short_code r) r = true) by now apply has_code_true.
  now rewrite Hhas.
Qed.

(** The stats of a record just created: its code, the posted target, no
    click, active.  The code had no stats before, and the stats of every
    other code are what they were. *)
Theorem post_then_stats fuel url w r w' :
  create_short_url fuel url w = Some (Created r, w') ->
  get_url_stats (URL.short_code r) w = HTTPException 404
  /\ get_url_stats (URL.short_code r) w'
     = Stats (URL.short_code r) (URLCreate.target_url url) 0 true
  /\ forall other, other <> URL.short_code r ->
       get_url_stats other w' = get_url_stats other w.
Proof.
  intros Hrun.
  apply create_short_url_created in Hrun as (e & Hfree & Hr & ->).
  unfold get_url_stats; simpl. split; [now rewrite Hfree|]. split.
  - rewrite (lookup_after_insert (URL.short_code r) r (session w)), Hfree.
    assert (Hhas : has_code (URL.short_code r) r = true)
      by now apply has_code_true.
    rewrite Hhas, Hr. reflexivity.
  - intros other Hne.
    rewrite (lookup_after_insert other r (session w)).
    destruct (get_db_url_by_code other (session w)); [reflexivity|].
    destruct (has_code other r) eqn:Hhas; [|reflexivity].
    apply has_code_true in Hhas. congruence.
Qed.

(** GET /{short_code} answers in exactly three ways.  An unhandled error,
    in two cases only: a client is set and its server is unreachable
    (nothing changes), or the row is found active on the Store path but its
    counter plus 1 does not fit the INTEGER column (the Store is unchanged,
    the pair was already written to the Cache).  404, on the Store path, for
    a code that is absent or inactive (nothing changes).  A 307 redirect, to
    the cached URL on a hit (nothing changes) or to the row's target on a
    miss. *)
Theorem resolve_outcomes code w :
  let out := redirect_to_target_url code w in
  (fst out = Unhandled <->
     redis_client w = Some Redis.Unreachable
     \/ (cache_miss code w
         /\ exists r, get_db_url_by_code code (session w) = Some r
                      /\ URL.is_active r = true
                      /\ fits_integer (URL.clicks r + 1) = false))
  /\ ((redis_client w = Some Redis.Unreachable /\ out = (Unhandled, w))
      \/ (cache_miss code w /\ out = (HTTPException 404, w)
          /\ (get_db_url_by_code code (session w) = None
              \/ exists r, get_db_url_by_code code (session w) = Some r
                           /\ URL.is_active r = false))
      \/ (exists kv u, redis_client w = Some (Redis.Connected kv)
            /\ kv !! code = Some u /\ u <> ""
            /\ out = (RedirectResponse u 307, w))
      \/ (exists r, cache_miss code w
            /\ get_db_url_by_code code (session w) = Some r
            /\ URL.is_active r = true
            /\ fits_integer (URL.clicks r + 1) = true
            /\ fst out = RedirectResponse (URL.target_url r) 307)
      \/ (exists r, cache_miss code w
            /\ get_db_url_by_code code (session w) = Some r
            /\ URL.is_active r = true
            /\ fits_integer (URL.clicks r + 1) = false
            /\ out = (Unhandled,
                      {| redis_client :=
                           primed_cache code (URL.target_url r)
                             (redis_client w);
                         session := session w;
                         secrets := secrets w |}))).
Proof.
  intros out. subst out.
  destruct (cache_lookup_cases code w)
    as [Hdown|[(kv & u & Hrc & Hkv & Hne)|Hmiss]].
  - rewrite (redirect_unreachable code w Hdown). split; [tauto|]. left. auto.
  - rewrite (redirect_hit code w kv u Hrc Hkv Hne). cbn [fst]. split.
    + split; [discriminate|].
      intros [Hdown|([Hnone|(kv' & Hrc' & Hmiss)] & _)]; try congruence.
      rewrite Hrc in Hrc'. injection Hrc' as <-.
      rewrite Hkv, (truthy_Some u Hne) in Hmiss. discriminate.
    + right; right; left. exists kv, u. auto.
  - assert (Hup : redis_client w <> Some Redis.Unreachable)
      by (destruct Hmiss as [->|(kv & -> & _)]; discriminate).
    rewrite (redirect_miss code w Hmiss).
    destruct (get_db_url_by_code code (session w)) as [r|] eqn:Hr.
    + destruct (URL.is_active r) eqn:Hon.
      * destruct (fits_integer (URL.clicks r + 1)) eqn:Hfits; cbn [fst].
        -- split.
           ++ split; [discriminate|].
              intros [Hdown|(_ & r' & Hr' & _ & Hf)]; [contradiction|].
              injection Hr' as <-. congruence.
           ++ right; right; right; left. exists r. auto.
        -- split.
           ++ split; [|reflexivity]. intros _. right. split; [exact Hmiss|].
              exists r. auto.
           ++ right; right; right; right. exists r. auto.
      * cbn [fst]. split.
        -- split; [discriminate|].
           intros [Hdown|(_ & r' & Hr' & Hon' & _)]; [contradiction|].
           injection Hr' as <-. congruence.
        -- right; left. split; [exact Hmiss|]. split; [reflexivity|].
           right. exists r. auto.
    + cbn [fst]. split.
      * split; [discriminate|].
        intros [Hdown|(_ & r' & Hr' & _)]; [contradiction | discriminate].
      * right; left. auto.
Qed.

(** No handler deletes a row, moves its key, changes its code or its
    target, or turns [is_active] off or on; the counter of a row is left
    alone, except that resolving the row's own code can add 1 to it. *)
Theorem handlers_keep_rows q w resp w' code r :
  db_wf (session w) ->
  serve q w = Some (resp, w') ->
  get_db_url_by_code code (session w) = Some r ->
  exists r',
    get_db_url_by_code code (session w') = Some r'
    /\ URL.id r' = URL.id r /\ URL.short_code r' = URL.short_code r
    /\ URL.target_url r' = URL.target_url r
    /\ URL.is_active r' = URL.is_active r
    /\ (URL.clicks r' = URL.clicks r
        \/ (q = Resolve code /\ URL.clicks r' = URL.clicks r + 1)).
Proof.
  intros Hwf Hserve Hr. destruct q as [fuel url | sc | sc]; simpl in Hserve.
  - destruct (create_short_url_outcomes _ _ _ _ _ Hserve) as [[_ ->]|[r0 ->]].
    + exists r. auto 10.
    + apply create_short_url_created in Hserve as (e & _ & _ & ->). simpl.
      rewrite (lookup_after_insert code r0 (session w)), Hr. exists r. auto 10.
  - injection Hserve as _ <-. exists r. auto 10.
  - assert (w' = snd (redirect_to_target_url sc w)) as ->
      by (destruct (redirect_to_target_url sc w); simpl; congruence).
    clear Hserve.
    destruct (cache_lookup_cases sc w)
      as [Hdown|[(kv & u & Hrc & Hkv & Hne)|Hmiss]].
    + rewrite (redirect_unreachable sc w Hdown). exists r. auto 10.
    + rewrite (redirect_hit sc w kv u Hrc Hkv Hne). exists r. auto 10.
    + rewrite (redirect_miss sc w Hmiss).
      destruct (get_db_url_by_code sc (session w)) as [found|] eqn:Hf;
        [|exists r; auto 10].
      destruct (URL.is_active found); [|exists r; auto 10].
      destruct (fits_integer (URL.clicks found + 1)); [|exists r; auto 10].
      cbn [snd session].
      rewrite lookup_after_update, Hr. simpl.
      destruct (decide (URL.id r = URL.id found)) as [Hid|];
        [|exists r; auto 10].
      apply lookup_code_sound in Hr as [Hin Hc], Hf as [Hin' Hc'].
      assert (r = found) as <-
        by exact (in_map_fst_eq URL.id _ _ _ (wf_ids _ Hwf) Hin Hin' Hid).
      eexists. split; [reflexivity|]. simpl. repeat split.
      right. split; [congruence | reflexivity].
Qed.

(** ** What the click counter counts *)

Lemma with_clicks_same r : URL.with_clicks (URL.clicks r + 0) r = r.
Proof. destruct r; unfold URL.with_clicks; simpl. f_equal. lia. Qed.

Lemma resolve_miss_once code w r :
  cache_miss code w ->
  get_db_url_by_code code (session w) = Some r -> URL.is_active r = true ->
  INTEGER_MIN <= URL.clicks r < INTEGER_MAX ->
  redirect_to_target_url code w =
  (RedirectResponse (URL.target_url r) 307,
   {| redis_client := primed_cache code (URL.target_url r) (redis_client w);
      session := update_rows
                   (URL.with_clicks (URL.clicks r + 1) r) (session w);
      secrets := secrets w |})
  /\ get_db_url_by_code code
       (update_rows (URL.with_clicks (URL.clicks r + 1) r) (session w))
     = Some (URL.with_clicks (URL.clicks r + 1) r).
Proof.
  intros Hmiss Hr Hon Hrange.
  rewrite (redirect_miss code w Hmiss), Hr, Hon, (fits_integer_next _ Hrange).
  split; [reflexivity|]. rewrite lookup_after_update, Hr. simpl.
  destruct (decide (URL.id r = URL.id r)); [reflexivity|contradiction].
Qed.

(** As long as nothing truthy can be cached for the code (no client, or an
    empty target) and the counter stays within the column, every resolve
    takes the Store path and counts. *)
Lemma resolve_times_all_misses code n : forall w r,
  cache_miss code w ->
  redis_client w = None \/ URL.target_url r = "" ->
  get_db_url_by_code code (session w) = Some r -> URL.is_active r = true ->
  INTEGER_MIN <= URL.clicks r -> URL.clicks r + Z.of_nat n <= INTEGER_MAX ->
  cache_miss code (resolve_times n code w)
  /\ get_db_url_by_code code (session (resolve_times n code w))
     = Some (URL.with_clicks (URL.clicks r + Z.of_nat n) r).
Proof.
  induction n as [|n IH]; intros w r Hmiss Hwhy Hr Hon Hlo Hhi.
  - simpl. split; [exact Hmiss|]. now rewrite with_clicks_same.
  - cbn [resolve_times].
    assert (Hrange : INTEGER_MIN <= URL.clicks r < INTEGER_MAX) by lia.
    destruct (resolve_miss_once code w r Hmiss Hr Hon Hrange) as [-> Hr1].
    cbn [snd].
    set (r1 := URL.with_clicks (URL.clicks r + 1) r) in *.
    set (w1 := {| redis_client := _; session := _; secrets := _ |}).
    assert (Hmiss1 : cache_miss code w1).
    { unfold cache_miss, w1; simpl.
      destruct (redis_client w) as [[kv|]|] eqn:Hrc; simpl.
      - right. eexists. split; [reflexivity|].
        rewrite lookup_insert_eq.
        destruct Hwhy as [Hnone | ->]; [discriminate | reflexivity].
      - destruct Hmiss as [Hnone|(kv & Hkv & _)]; congruence.
      - now left. }
    assert (Hwhy1 : redis_client w1 = None \/ URL.target_url r1 = "").
    { destruct Hwhy as [Hnone | Hempty]; [left | right; exact Hempty].
      unfold w1; simpl. now rewrite Hnone. }
    destruct (IH w1 r1 Hmiss1 Hwhy1 Hr1 Hon) as [Hm Hl].
    { unfold r1; simpl. lia. }
    { unfold r1; simpl. lia. }
    split; [exact Hm|]. rewrite Hl. unfold r1, URL.with_clicks; simpl.
    do 2 f_equal. lia.
Qed.

Lemma resolve_times_hit code n w kv u :
  redis_client w = Some (Redis.Connected kv) ->
  kv !! code = Some u -> u <> "" ->
  resolve_times n code w = w.
Proof.
  intros Hrc Hkv Hne. induction n as [|n IH]; [reflexivity|].
  cbn [resolve_times]. now rewrite (redirect_hit code w kv u Hrc Hkv Hne).
Qed.

(** Without a Cache client every resolve is counted, as long as the counter
    fits the column: after [n] resolves of an active code whose counter
    stays within the INTEGER range, the stats report [n] more clicks. *)
Theorem clicks_count_every_resolve_without_cache code n w r :
  redis_client w = None ->
  get_db_url_by_code code (session w) = Some r -> URL.is_active r = true ->
  INTEGER_MIN <= URL.clicks r -> URL.clicks r + Z.of_nat n <= INTEGER_MAX ->
  get_url_stats code (resolve_times n code w)
  = Stats (URL.short_code r) (URL.target_url r)
          (URL.clicks r + Z.of_nat n) true.
Proof.
  intros Hrc Hr Hon Hlo Hhi.
  destruct (resolve_times_all_misses code n w r) as [_ Hl]; auto.
  - now left.
  - unfold get_url_stats. rewrite Hl. simpl. now rewrite Hon.
Qed.

(** With a reachable Cache and a non-empty target only the first resolve is
    counted: it primes the Cache, and the stats after any number [S n] of
    resolves report one more click, the next resolve being again a redirect
    to the target.  The counter must be below the largest INTEGER for the
    first resolve to go through. *)
Theorem clicks_count_only_first_resolve_with_cache code n w kv r :
  redis_client w = Some (Redis.Connected kv) -> truthy (kv !! code) = false ->
  get_db_url_by_code code (session w) = Some r -> URL.is_active r = true ->
  URL.target_url r <> "" ->
  INTEGER_MIN <= URL.clicks r < INTEGER_MAX ->
  get_url_stats code (resolve_times (S n) code w)
  = Stats (URL.short_code r) (URL.target_url r) (URL.clicks r + 1) true
  /\ fst (redirect_to_target_url code (resolve_times (S n) code w))
     = RedirectResponse (URL.target_url r) 307.
Proof.
  intros Hrc Hkv Hr Hon Hne Hrange.
  assert (Hmiss : cache_miss code w) by (right; eauto).
  cbn [resolve_times].
  destruct (resolve_miss_once code w r Hmiss Hr Hon Hrange) as [-> Hr1].
  cbn [snd].
  set (w1 := {| redis_client := _; session := _; secrets := _ |}).
  assert (Hrc1 : redis_client w1
                 = Some (Redis.Connected (<[code := URL.target_url r]> kv)))
    by (unfold w1; simpl; now rewrite Hrc).
  rewrite (resolve_times_hit code n w1 _ (URL.target_url r) Hrc1);
    [|apply lookup_insert_eq | exact Hne].
  split.
  - unfold get_url_stats, w1; simpl. rewrite Hr1. simpl. now rewrite Hon.
  - rewrite (redirect_hit code w1 _ (URL.target_url r) Hrc1);
      [reflexivity | apply lookup_insert_eq | exact Hne].
Qed.

(** A record with an empty target is never served from the Cache: the
    cached empty string is falsy, so with a reachable Cache every resolve
    still reads the Store, redirects to the empty URL and is counted, as
    long as the counter fits the column. *)
Theorem empty_target_is_never_a_hit code n w kv r :
  redis_client w = Some (Redis.Connected kv) -> truthy (kv !! code) = false ->
  get_db_url_by_code code (session w) = Some r -> URL.is_active r = true ->
  URL.target_url r = "" ->
  INTEGER_MIN <= URL.clicks r -> URL.clicks r + Z.of_nat n < INTEGER_MAX ->
  get_url_stats code (resolve_times n code w)
  = Stats (URL.short_code r) "" (URL.clicks r + Z.of_nat n) true
  /\ fst (redirect_to_target_url code (resolve_times n code w))
     = RedirectResponse "" 307.
Proof.
  intros Hrc Hkv Hr Hon Hempty Hlo Hhi.
  assert (Hmiss : cache_miss code w) by (right; eauto).
  destruct (resolve_times_all_misses code n w r) as [Hm Hl]; auto; [lia|].
  split.
  - unfold get_url_stats. rewrite Hl. simpl. now rewrite Hon, Hempty.
  - rewrite (redirect_miss code _ Hm), Hl. cbn [URL.with_clicks URL.is_active
      URL.clicks URL.target_url].
    rewrite Hon, Hempty, fits_integer_next by lia. reflexivity.
Qed.

(** A counter at the largest INTEGER is stuck.  Without a client every
    resolve of the code ends in an unhandled error.  With a reachable Cache
    and a non-empty target the first resolve ends in an unhandled error but
    has written the pair to the Cache, so every later resolve is a hit and
    redirects; the stats keep reporting the same counter throughout. *)
Theorem saturated_counter_fails_once_then_cache_serves code n w r :
  cache_miss code w ->
  get_db_url_by_code code (session w) = Some r -> URL.is_active r = true ->
  URL.clicks r = INTEGER_MAX ->
  fst (redirect_to_target_url code w) = Unhandled
  /\ get_url_stats code (resolve_times n code w)
     = Stats (URL.short_code r) (URL.target_url r) INTEGER_MAX true
  /\ (redis_client w = None ->
      fst (redirect_to_target_url code (resolve_times n code w)) = Unhandled)
  /\ (forall kv, redis_client w = Some (Redis.Connected kv) ->
      URL.target_url r <> "" ->
      fst (redirect_to_target_url code (resolve_times (S n) code w))
      = RedirectResponse (URL.target_url r) 307).
Proof.
  intros Hmiss Hr Hon Hmax.
  assert (Hfits : fits_integer (URL.clicks r + 1) = false)
    by (rewrite Hmax; reflexivity).
  assert (Hone : forall w0, cache_miss code w0 -> session w0 = session w ->
            redirect_to_target_url code w0
            = (Unhandled,
               {| redis_client :=
                    primed_cache code (URL.target_url r) (redis_client w0);
                  session := session w0; secrets := secrets w0 |})).
  { intros w0 Hm Hs. rewrite (redirect_miss code w0 Hm), Hs, Hr, Hon, Hfits.
    reflexivity. }
  assert (Hsame : forall k w0, session w0 = session w ->
            session (resolve_times k code w0) = session w).
  { induction k as [|k IHk]; intros w0 Hs; [exact Hs|].
    cbn [resolve_times].
    destruct (cache_lookup_cases code w0)
      as [Hdown|[(kv & u & Hrc & Hkv & Hne)|Hm]].
    - rewrite (redirect_unreachable code w0 Hdown). now apply IHk.
    - rewrite (redirect_hit code w0 kv u Hrc Hkv Hne). now apply IHk.
    - rewrite (Hone w0 Hm Hs). cbn [snd]. now apply IHk. }
  pose proof (Hsame n w eq_refl) as Hstore.
  split; [now rewrite (Hone w Hmiss eq_refl)|]. split; [|split].
  - unfold get_url_stats. rewrite Hstore, Hr, Hon, Hmax. reflexivity.
  - intros Hnone.
    assert (Hn : forall k w0, redis_client w0 = None -> session w0 = session w ->
              redis_client (resolve_times k code w0) = None
              /\ session (resolve_times k code w0) = session w).
    { induction k as [|k IHk]; intros w0 Hrc0 Hs0; [auto|].
      cbn [resolve_times]. rewrite (Hone w0 (or_introl Hrc0) Hs0). cbn [snd].
      apply IHk; simpl; [now rewrite Hrc0 | exact Hs0]. }
    destruct (Hn n w Hnone eq_refl) as [Hrcn Hsn].
    now rewrite (Hone _ (or_introl Hrcn) Hsn).
  - intros kv Hrc Hne. cbn [resolve_times].
    rewrite (Hone w Hmiss eq_refl). cbn [snd].
    set (w1 := {| redis_client := _; session := _; secrets := _ |}).
    assert (Hrc1 : redis_client w1
                   = Some (Redis.Connected (<[code := URL.target_url r]> kv)))
      by (unfold w1; simpl; now rewrite Hrc).
    rewrite (resolve_times_hit code n w1 _ (URL.target_url r) Hrc1);
      [|apply lookup_insert_eq | exact Hne].
    rewrite (redirect_hit code w1 _ (URL.target_url r) Hrc1);
      [reflexivity | apply lookup_insert_eq | exact Hne].
Qed.

(** ** Every row of a reachable Store *)

Lemma find_by_own_code (l : list URL.t) r :
  NoDup (List.map URL.short_code l) -> In r l ->
  List.find (has_code (URL.short_code r)) l = Some r.
Proof.
  induction l as [|x l IH]; simpl; [tauto|].
  intros Hnd Hin. apply NoDup_cons in Hnd as [Hx Hnd].
  destruct (has_code (URL.short_code r) x) eqn:Hhas.
  - apply has_code_true in Hhas. destruct Hin as [->|Hin]; [reflexivity|].
    exfalso. apply Hx. rewrite Hhas. apply list_elem_of_In, in_map, Hin.
  - destruct Hin as [->|Hin]; [|now apply IH].
    assert (has_code (URL.short_code r) r = true) by now apply has_code_true.
    congruence.
Qed.

Lemma row_bounds_kept q w resp w' :
  serve q w = Some (resp, w') ->
  (forall r, In r (rows (session w)) ->
             URL.short_code r <> "" /\ 0 <= URL.clicks r) ->
  forall r, In r (rows (session w')) ->
            URL.short_code r <> "" /\ 0 <= URL.clicks r.
Proof.
  intros Hserve Hall. destruct q as [fuel url | sc | sc]; simpl in Hserve.
  - destruct (create_short_url_outcomes _ _ _ _ _ Hserve) as [[_ ->]|[r0 ->]];
      [exact Hall|].
    pose proof (created_code_nonempty _ _ _ _ _ Hserve) as Hne.
    apply create_short_url_created in Hserve as (e & _ & Hr0 & ->). simpl.
    intros r Hin. apply in_app_or in Hin as [Hin|[<-|[]]]; [now apply Hall|].
    split; [exact Hne|]. rewrite Hr0. simpl. lia.
  - injection Hserve as _ <-. exact Hall.
  - assert (w' = snd (redirect_to_target_url sc w)) as ->
      by (destruct (redirect_to_target_url sc w); simpl; congruence).
    clear Hserve.
    destruct (cache_lookup_cases sc w)
      as [Hdown|[(kv & u & Hrc & Hkv & Hne)|Hmiss]].
    + now rewrite (redirect_unreachable sc w Hdown).
    + now rewrite (redirect_hit sc w kv u Hrc Hkv Hne).
    + rewrite (redirect_miss sc w Hmiss).
      destruct (get_db_url_by_code sc (session w)) as [found|] eqn:Hf;
        [|exact Hall].
      destruct (URL.is_active found); [|exact Hall].
      destruct (fits_integer (URL.clicks found + 1)); [|exact Hall].
      unfold update_rows. simpl.
      intros r Hin. apply in_map_iff in Hin as (r0 & <- & Hin).
      destruct (Hall r0 Hin) as [Hc Hn].
      destruct (decide _); [|auto]. simpl. split; [exact Hc|].
      apply lookup_code_sound in Hf as [Hinf _].
      destruct (Hall found Hinf) as [_ Hnf]. lia.
Qed.

(** In every world the handlers reach from an empty table, each stored row
    has a non-empty code and a counter that is not negative, and is the row
    that a lookup of its code returns. *)
Theorem reachable_rows_sane w r :
  reachable w -> In r (rows (session w)) ->
  URL.short_code r <> "" /\ 0 <= URL.clicks r
  /\ get_db_url_by_code (URL.short_code r) (session w) = Some r.
Proof.
  intros Hreach Hin.
  assert (Hall : forall x, In x (rows (session w)) ->
                           URL.short_code x <> "" /\ 0 <= URL.clicks x).
  { clear r Hin. induction Hreach as [rc e _ | q w resp w' _ IH Hserve].
    - simpl. tauto.
    - exact (row_bounds_kept q w resp w' Hserve IH). }
  destruct (Hall r Hin) as [Hc Hn]. repeat split; auto.
  apply reachable_invariants in Hreach as [Hwf _].
  apply find_by_own_code; [apply (wf_codes _ Hwf) | exact Hin].
Qed.

(** In every such world the table's keys and codes are distinct, and the
    Cache only holds what the Store backs: a cached pair [code -> url] is
    the code and target that the stats endpoint reports for that code. *)
Theorem reachable_cache_agrees_with_store w kv code u :
  reachable w ->
  redis_client w = Some (Redis.Connected kv) -> kv !! code = Some u ->
  db_wf (session w)
  /\ exists n active, get_url_stats code w = Stats code u n active.
Proof.
  intros Hreach Hrc Hkv.
  apply reachable_invariants in Hreach as [Hwf Hco]. split; [exact Hwf|].
  destruct (Hco kv code u Hrc Hkv) as (r & Hr & Hu).
  exists (URL.clicks r), (URL.is_active r).
  unfold get_url_stats. rewrite Hr, Hu.
  apply lookup_code_sound in Hr as [_ ->]. reflexivity.
Qed.

(** ** Startup *)

Lemma wait_for_db_spec db_ok m n : forall a b,
  (a + n = S m)%nat -> (1 <= n)%nat ->
  match wait_for_db db_ok m (seq a n) b with
  | (false, b') =>
      (forall j, (a <= j <= m)%nat -> db_ok j = false)
      /\ slept b' = (slept b + 2 * (n - 1))%nat
      /\ List.last (printed b') WaitingForDb = DbGaveUp m
  | (true, b') =>
      exists k, (a <= k <= m)%nat /\ db_ok k = true
        /\ (forall j, (a <= j < k)%nat -> db_ok j = false)
        /\ slept b' = (slept b + 2 * (k - a))%nat
        /\ List.last (printed b') WaitingForDb = TablesReady
  end.
Proof.
  induction n as [|n IH]; intros a b Hsum Hpos; [lia|].
  cbn [seq wait_for_db].
  destruct (db_ok a) eqn:Hok.
  - exists a. split; [lia|]. split; [exact Hok|]. split; [intros; lia|].
    split; [simpl; lia | simpl; apply last_last].
  - destruct (Nat.eqb_spec a m) as [->|Hne].
    + assert (n = 0%nat) as -> by lia. split; [|split].
      * intros j Hj. assert (j = m) as -> by lia. exact Hok.
      * simpl. lia.
      * simpl. apply last_last.
    + specialize (IH (S a) {| slept := slept b + 2;
                              printed := printed b ++ [DbNotReady a m 2] |}).
      assert (Hsum' : (S a + n = S m)%nat) by lia.
      assert (Hpos' : (1 <= n)%nat) by lia.
      specialize (IH Hsum' Hpos').
      destruct (wait_for_db db_ok m (seq (S a) n) _) as [[|] b'].
      * destruct IH as (k & Hk & Hokk & Hprev & Hs & Hl).
        exists k. split; [lia|]. split; [exact Hokk|]. split; [|split].
        -- intros j Hj. destruct (Nat.eq_dec j a) as [->|]; [exact Hok|].
           apply Hprev. lia.
        -- simpl in Hs. lia.
        -- exact Hl.
      * destruct IH as (Hall & Hs & Hl). split; [|split].
        -- intros j Hj. destruct (Nat.eq_dec j a) as [->|]; [exact Hok|].
           apply Hall. lia.
        -- simpl in Hs. lia.
        -- exact Hl.
Qed.

(** Startup tries the database ten times, sleeping 2 seconds after each
    failure but the last.  It gives up, after 18 seconds of sleep, exactly
    when all ten attempts fail; otherwise it serves after [2 * (k - 1)]
    seconds, [k] being the first attempt that goes through, with the tables
    it found (an empty one on a first start) and with the Redis client
    set whatever the ping said. *)
Theorem lifespan_retries_ten_times db_ok pg srv e :
  match lifespan db_ok pg srv e with
  | Crashed b =>
      (forall k, (1 <= k <= 10)%nat -> db_ok k = false)
      /\ slept b = 18%nat
      /\ List.last (printed b) WaitingForDb = DbGaveUp 10
  | Serving w b =>
      (exists k, (1 <= k <= 10)%nat /\ db_ok k = true
         /\ (forall j, (1 <= j < k)%nat -> db_ok j = false)
         /\ slept b = (2 * (k - 1))%nat)
      /\ (slept b <= 18)%nat
      /\ w = {| redis_client := Some srv;
                session := create_db_and_tables pg; secrets := e |}
  end.
Proof.
  unfold lifespan.
  pose proof (wait_for_db_spec db_ok 10 10 1
                {| slept := 0; printed := [WaitingForDb] |}) as H.
  destruct (wait_for_db db_ok 10 (seq 1 10) _) as [[|] b].
  - destruct H as (k & Hk & Hok & Hprev & Hs & _); try lia.
    simpl in Hs. split; [|split; [simpl; lia | reflexivity]].
    exists k. simpl. split; [lia|]. split; [exact Hok|].
    split; [exact Hprev | lia].
  - destruct H as (Hall & Hs & Hl); try lia.
    split; [exact Hall|]. split; [simpl in Hs; lia | exact Hl].
Qed.

(** A service that started always has a Redis client, so the handlers'
    [if redis_client:] guards are always taken.  When the server could not
    be reached at startup, the failure is printed and the service serves
    all the same: every resolve then ends in an unhandled error and changes
    nothing, while POST /shorten answers as it would without a Cache. *)
Theorem started_service_keeps_unreachable_client db_ok pg srv e w b :
  lifespan db_ok pg srv e = Serving w b ->
  redis_client w = Some srv
  /\ session w = create_db_and_tables pg
  /\ (forall kv, srv = Redis.Connected kv ->
        List.last (printed b) WaitingForDb = RedisOk)
  /\ (srv = Redis.Unreachable ->
        List.last (printed b) WaitingForDb = RedisError
        /\ (forall code, redirect_to_target_url code w = (Unhandled, w))
        /\ (forall fuel url,
              visible (create_short_url fuel url w)
              = visible (create_short_url fuel url (with_redis None w)))).
Proof.
  unfold lifespan.
  destruct (wait_for_db db_ok 10 (seq 1 10) _) as [[|] b0]; [|discriminate].
  intros [= <- <-]. simpl. split; [reflexivity|]. split; [reflexivity|].
  split; [intros kv ->; apply last_last|].
  intros ->. split; [apply last_last|]. split; [reflexivity|].
  intros fuel url.
  exact (create_short_url_ignores_cache fuel url
           (with_redis None
              {| redis_client := Some Redis.Unreachable;
                 session := create_db_and_tables pg; secrets := e |})
           (Some Redis.Unreachable)).
Qed.

(** ** POST /shorten under concurrent requests *)

Lemma shorten_alone_is_the_handler fuel url w :
  shorten_alone fuel url w =
  match create_short_url fuel url w with
  | Some (r, w') => Some (Answered r, w')
  | None => None
  end.
Proof.
  unfold shorten_alone, create_short_url, shorten_step.
  destruct (truthy (URLCreate.short_code url)).
  - destruct (get_db_url_by_code _ (session w)); [reflexivity|].
    destruct (session_insert _ (session w)) as [[db_url|] db']; reflexivity.
  - destruct (draw_unused fuel (secrets w) (session w)) as [[c e]|];
      [|reflexivity].
    simpl. destruct (session_insert _ (session w)) as [[db_url|] db'];
      reflexivity.
Qed.





(** ** The repository's test *)


(** ** The further properties at concrete requests *)

Lemma second_post_same_code_conflicts_witness :
  let w := world None empty_db in
  let req := URLCreate.mk "https://x.com" (Some "abc1234") in
  let w' := after_insert (stored_row "https://x.com" "abc1234" empty_db)
              counting w in
  create_short_url 0 req w' = Some (HTTPException 409, w').
Proof.
  intros w req w'.
  apply (second_post_same_code_conflicts 0 req w
           (stored_row "https://x.com" "abc1234" empty_db) w' 0 req).
  - reflexivity.
  - reflexivity.
Defined.


Lemma post_then_stats_witness :
  let w := world None empty_db in
  let r := stored_row google "abc1234" empty_db in
  get_url_stats "abc1234" (after_insert r counting w)
  = Stats "abc1234" google 0 true.
Proof.
  intros w r.
  apply (post_then_stats 0 (URLCreate.mk google (Some "abc1234")) w r
           (after_insert r counting w) eq_refl).
Defined.

Lemma handlers_keep_rows_witness :
  let w := world None (one_row "abc1234" google true 7) in
  let r := row_of "abc1234" google true 7 in
  exists r',
    get_db_url_by_code "abc1234"
      (session (snd (redirect_to_target_url "abc1234" w))) = Some r'
    /\ URL.id r' = URL.id r /\ URL.short_code r' = URL.short_code r
    /\ URL.target_url r' = URL.target_url r
    /\ URL.is_active r' = URL.is_active r
    /\ (URL.clicks r' = URL.clicks r
        \/ (Resolve "abc1234" = Resolve "abc1234"
            /\ URL.clicks r' = URL.clicks r + 1)).
Proof.
  intros w r.
  apply (handlers_keep_rows (Resolve "abc1234") w
           (fst (redirect_to_target_url "abc1234" w))
           (snd (redirect_to_target_url "abc1234" w)) "abc1234" r).
  - apply db_wf_one_row.
  - reflexivity.
  - reflexivity.
Defined.

Lemma clicks_count_every_resolve_without_cache_witness :
  get_url_stats "abc1234"
    (resolve_times 3 "abc1234" (world None (one_row "abc1234" google true 0)))
  = Stats "abc1234" google (0 + Z.of_nat 3) true.
Proof.
  apply (clicks_count_every_resolve_without_cache "abc1234" 3
           (world None (one_row "abc1234" google true 0))
           (row_of "abc1234" google true 0)); try reflexivity.
  - unfold INTEGER_MIN. simpl. lia.
  - unfold INTEGER_MAX. simpl. lia.
Defined.

Lemma clicks_count_only_first_resolve_with_cache_witness :
  let w := world (Some (Redis.Connected ∅)) (one_row "abc1234" google true 0) in
  get_url_stats "abc1234" (resolve_times 3 "abc1234" w)
  = Stats "abc1234" google (0 + 1) true
  /\ fst (redirect_to_target_url "abc1234" (resolve_times 3 "abc1234" w))
     = RedirectResponse google 307.
Proof.
  intros w.
  apply (clicks_count_only_first_resolve_with_cache "abc1234" 2 w ∅
           (row_of "abc1234" google true 0)); try reflexivity.
  - discriminate.
  - unfold INTEGER_MIN, INTEGER_MAX. simpl. lia.
Defined.

Lemma empty_target_is_never_a_hit_witness :
  let w := world (Some (Redis.Connected ∅)) (one_row "abc1234" "" true 0) in
  get_url_stats "abc1234" (resolve_times 3 "abc1234" w)
  = Stats "abc1234" "" (0 + Z.of_nat 3) true
  /\ fst (redirect_to_target_url "abc1234" (resolve_times 3 "abc1234" w))
     = RedirectResponse "" 307.
Proof.
  intros w.
  apply (empty_target_is_never_a_hit "abc1234" 3 w ∅
           (row_of "abc1234" "" true 0)); try reflexivity.
  unfold INTEGER_MIN. simpl. lia.
Defined.

Lemma saturated_counter_fails_once_then_cache_serves_witness :
  let w := world (Some (Redis.Connected ∅))
             (one_row "abc1234" google true 2147483647) in
  fst (redirect_to_target_url "abc1234" w) = Unhandled
  /\ get_url_stats "abc1234" (resolve_times 3 "abc1234" w)
     = Stats "abc1234" google INTEGER_MAX true
  /\ fst (redirect_to_target_url "abc1234" (resolve_times 1 "abc1234" w))
     = RedirectResponse google 307.
Proof.
  intros w.
  destruct (saturated_counter_fails_once_then_cache_serves "abc1234" 3 w
              (row_of "abc1234" google true 2147483647))
    as (Hfirst & Hstats & _ & _).
  - right. exists ∅. split; reflexivity.
  - reflexivity.
  - reflexivity.
  - reflexivity.
  - split; [exact Hfirst|]. split; [exact Hstats|].
    destruct (saturated_counter_fails_once_then_cache_serves "abc1234" 0 w
                (row_of "abc1234" google true 2147483647))
      as (_ & _ & _ & Hlater).
    + right. exists ∅. split; reflexivity.
    + reflexivity.
    + reflexivity.
    + reflexivity.
    + apply (Hlater ∅); [reflexivity | discriminate].
Defined.

Lemma reachable_after_post_and_get :
  reachable
    (snd (redirect_to_target_url "abc1234"
            (after_insert (stored_row google "abc1234" empty_db) counting
               (world (Some (Redis.Connected ∅)) empty_db)))).
Proof.
  set (w0 := world (Some (Redis.Connected ∅)) empty_db).
  set (r := stored_row google "abc1234" empty_db).
  apply (reachable_serve (Resolve "abc1234") (after_insert r counting w0)
           (fst (redirect_to_target_url "abc1234" (after_insert r counting w0))));
    [|reflexivity].
  apply (reachable_serve (Shorten 0 (URLCreate.mk google (Some "abc1234"))) w0
           (Created r)); [|reflexivity].
  apply reachable_start. right; left; reflexivity.
Qed.

Lemma reachable_cache_agrees_with_store_witness :
  let w := snd (redirect_to_target_url "abc1234"
                  (after_insert (stored_row google "abc1234" empty_db) counting
                     (world (Some (Redis.Connected ∅)) empty_db))) in
  db_wf (session w)
  /\ exists n active, get_url_stats "abc1234" w = Stats "abc1234" google n active.
Proof.
  intros w.
  apply (reachable_cache_agrees_with_store w (<["abc1234" := google]> ∅)
           "abc1234" google).
  - apply reachable_after_post_and_get.
  - reflexivity.
  - apply lookup_insert_eq.
Defined.

Lemma reachable_rows_sane_witness :
  let w := snd (redirect_to_target_url "abc1234"
                  (after_insert (stored_row google "abc1234" empty_db) counting
                     (world (Some (Redis.Connected ∅)) empty_db))) in
  let r := URL.with_clicks 1 (stored_row google "abc1234" empty_db) in
  URL.short_code r <> "" /\ 0 <= URL.clicks r
  /\ get_db_url_by_code (URL.short_code r) (session w) = Some r.
Proof.
  intros w r. apply (reachable_rows_sane w r).
  - apply reachable_after_post_and_get.
  - left. reflexivity.
Defined.

Lemma started_service_keeps_unreachable_client_witness :
  let w := {| redis_client := Some Redis.Unreachable;
              session := one_row "abc1234" google true 0;
              secrets := counting |} in
  redis_client w = Some Redis.Unreachable
  /\ redirect_to_target_url "abc1234" w = (Unhandled, w).
Proof.
  intros w.
  destruct (started_service_keeps_unreachable_client
              (fun attempt => Nat.leb 3 attempt)
              (Some (one_row "abc1234" google true 0)) Redis.Unreachable
              counting w
              {| slept := 4;
                 printed := [WaitingForDb; DbNotReady 1 10 2; DbNotReady 2 10 2;
                             TablesReady; RedisError] |} eq_refl)
    as (Hrc & _ & _ & Hdown).
  split; [exact Hrc|]. destruct (Hdown eq_refl) as (_ & Hget & _). apply Hget.
Defined.


